(** * hypometerAPI: the hype-score aggregation pipeline

    A shallow embedding of [main.py] (the request handler [get_hype] and the
    aggregator [analyze_hype]) and of [trends_analyzer.py]
    ([calculate_hype_from_trends]), followed by the properties of the
    program that the specification states.

    Modelling conventions.
    - Python [str] is [string], a sequence of 8-bit characters;
      [str.lower] is modelled on the ASCII letters only, every other
      character is left as it is.  What is proved about letter case is
      therefore about the ASCII letters.
    - Python [int] is [Z] (or [nat] for a [len] or a count); Python [float]
      is an exact rational [Q], so equalities between scores are stated
      with [==].  Every score named in a statement (20, 43, 100) is exactly
      representable in binary64.
    - An exception is a value of [Exception]; code that may raise returns a
      sum [Exception + A].
    - The outside world (Wikipedia, Reddit, NewsAPI, the environment
      variables, the clock) is a parameter; every network call is recorded
      in a log, in the order the program issues them.
    - [print] calls write to the console only and are left out. *)

From Stdlib Require Import ZArith QArith Qminmax Lqa String Ascii List Lia DecimalString.
From stdpp Require Import gmap strings.
Import ListNotations.

Open Scope string_scope.
Open Scope list_scope.
Open Scope Z_scope.

(** ** Python values and built-ins used by the program *)

Module Py.

(** The exceptions the program can meet, by the class that the [except]
    clauses discriminate on; each carries the text that [str(e)] (or, for
    [DisambiguationError], the formatting of [e.options]) renders. *)
Inductive Exception : Type :=
| PageError (msg : string)             (* wikipedia.exceptions.PageError *)
| DisambiguationError (options : string) (* wikipedia.exceptions.DisambiguationError *)
| RequestException (msg : string)      (* requests.exceptions.RequestException and subclasses *)
| AttributeError (msg : string)
| TypeError (msg : string)
| IndexError (msg : string)
| KeyError (msg : string)
| OtherException (msg : string).       (* any other subclass of Exception *)

Definition str_exc (e : Exception) : string :=
  match e with
  | PageError msg | RequestException msg | AttributeError msg
  | TypeError msg | IndexError msg | KeyError msg | OtherException msg => msg
  | DisambiguationError options => options
  end.

(** [isinstance(e, requests.exceptions.RequestException)] *)
Definition is_RequestException (e : Exception) : bool :=
  match e with RequestException _ => true | _ => false end.

(** A decoded JSON document, as [response.json()] returns it.  Numbers
    are integers, as the counts of the news service are; JSON floats and
    booleans are left out. *)
#[local] Set Warnings "-register-all".
Inductive value : Type :=
| PyNone
| PyInt (z : Z)
| PyStr (s : string)
| PyList (items : list value)
| PyDict (items : list (string * value)).

(** Truth value of an optional string: [None] and the empty string are
    false. *)
Definition truthy (o : option string) : bool :=
  match o with
  | Some (String _ _) => true
  | Some EmptyString | None => false
  end.

(** [str(n)] for an integer, as an f-string renders it. *)
Definition str_int (z : Z) : string := NilZero.string_of_int (Z.to_int z).

(** [c.lower()] on one character: the 26 ASCII capitals move down by 32. *)
Definition lower_ascii (c : ascii) : ascii :=
  let n := N_of_ascii c in
  if ((65 <=? n) && (n <=? 90))%N then ascii_of_N (n + 32) else c.

(** [s.lower()], on the ASCII letters: the Unicode case mappings of
    Python (accented capitals, final sigma, dotted and dotless i) are not
    modelled. *)
Fixpoint lower (s : string) : string :=
  match s with
  | EmptyString => EmptyString
  | String c rest => String (lower_ascii c) (lower rest)
  end.

(** [a < b] on numbers. *)
Definition Qltb (a b : Q) : bool := negb (Qle_bool b a).

(** [min(a, b)]: the first argument unless the second is strictly less. *)
Definition min (a b : Q) : Q := if Qltb b a then b else a.

(** [d.get(key, default)] on a dict given as its items. *)
Fixpoint dict_get (items : list (string * value)) (key : string) (default : value) : value :=
  match items with
  | [] => default
  | (k, v) :: rest => if String.eqb k key then v else dict_get rest key default
  end.

End Py.

(** ** main.py *)

Module Main.
Import Py.

(** *** Configuration and collaborators *)

(** The environment variables read at start-up ([os.getenv] returns [None]
    for an unset variable). *)
Record Config : Type := {
  REDDIT_CLIENT_ID : option string;
  REDDIT_CLIENT_SECRET : option string;
  NEWSAPI_KEY : option string
}.

Definition REDDIT_USER_AGENT : string := "hypeometer".

Record Reddit : Type := {
  client_id : string;
  client_secret : string;
  user_agent : string
}.

(** The module-level [reddit]: a client when both credentials are set and
    non-empty, [None] otherwise. *)
Definition reddit (cfg : Config) : option Reddit :=
  match REDDIT_CLIENT_ID cfg, REDDIT_CLIENT_SECRET cfg with
  | Some id, Some secret =>
      if truthy (Some id) && truthy (Some secret)
      then Some {| client_id := id; client_secret := secret;
                   user_agent := REDDIT_USER_AGENT |}
      else None
  | _, _ => None
  end.

(** A Wikipedia page object; reading [page.links] may itself fail. *)
Record WikipediaPage : Type := {
  links : Exception + list string
}.

(** An HTTP response: [raise_for_status] raises an [HTTPError] (a
    [RequestException]) with text [msg] when [http_error] is [Some msg];
    [json] is what [response.json()] returns or raises. *)
Record Response : Type := {
  http_error : option string;
  json : Exception + value
}.

(** The three external services, as the outcomes of the calls the program
    makes.  [reddit_search q limit] is the outcome of creating the search
    listing and consuming it. *)
Record Services : Type := {
  wikipedia_page : string -> Exception + WikipediaPage;
  reddit_search : Reddit -> string -> nat -> Exception + list string;
  requests_get : string -> Exception + Response
}.

(** A call handed to one of the three client libraries ([wikipedia.page],
    the Reddit search, [requests.get]), as logged. *)
Inductive Call : Type :=
| CallWikipedia (title : string)
| CallReddit (query : string) (limit : nat)
| CallNewsAPI (url : string).

Definition is_wikipedia_call (c : Call) : bool :=
  match c with CallWikipedia _ => true | _ => false end.
Definition is_reddit_call (c : Call) : bool :=
  match c with CallReddit _ _ => true | _ => false end.
Definition is_news_call (c : Call) : bool :=
  match c with CallNewsAPI _ => true | _ => false end.

(** *** The local state of [analyze_hype] and its monad *)

(** The three local variables of [analyze_hype], together with the log of
    network calls. *)
Record Frame : Type := {
  score : Q;
  title : string;
  snippets : list string;
  calls : list Call
}.

(** A computation reads and updates the frame and either raises or
    returns. *)
Definition M (A : Type) : Type := Frame -> (Exception + A) * Frame.

Definition ret {A} (a : A) : M A := fun fr => (inr a, fr).

Definition bind {A B} (m : M A) (k : A -> M B) : M B :=
  fun fr =>
    match m fr with
    | (inl e, fr') => (inl e, fr')
    | (inr a, fr') => k a fr'
    end.

(** The outcome of a fallible step that does not touch the network. *)
Definition lift {A} (r : Exception + A) : M A := fun fr => (r, fr).

(** A network call: logged, then its outcome. *)
Definition call {A} (c : Call) (r : Exception + A) : M A :=
  fun fr =>
    (r, {| score := score fr; title := title fr; snippets := snippets fr;
           calls := calls fr ++ [c] |}).

(** [try: body / except ...: handler]: [handler e] is [None] when no
    [except] clause matches [e], which then propagates.  The frame the
    handler starts from is the one the body left. *)
Definition try_except {A} (body : M A) (handler : Exception -> option (M A)) : M A :=
  fun fr =>
    match body fr with
    | (inl e, fr') =>
        match handler e with
        | Some h => h fr'
        | None => (inl e, fr')
        end
    | (inr a, fr') => (inr a, fr')
    end.

(** [score += delta] *)
Definition add_score (delta : Q) : M unit :=
  fun fr =>
    (inr tt, {| score := (score fr + delta)%Q; title := title fr;
                snippets := snippets fr; calls := calls fr |}).

(** [title = t] *)
Definition set_title (t : string) : M unit :=
  fun fr =>
    (inr tt, {| score := score fr; title := t; snippets := snippets fr;
                calls := calls fr |}).

(** [snippets.append(s)] *)
Definition append_snippet (s : string) : M unit :=
  fun fr =>
    (inr tt, {| score := score fr; title := title fr;
                snippets := snippets fr ++ [s]; calls := calls fr |}).

Declare Scope py_scope.
Delimit Scope py_scope with py.
Notation "x <- m ;; k" := (bind m (fun x => k))
  (at level 100, m at next level, right associativity) : py_scope.
Notation "m ;;; k" := (bind m (fun _ => k))
  (at level 100, right associativity) : py_scope.
Open Scope py_scope.

(** *** The aggregator *)

(** The three clamped contributions, as the right-hand sides of the three
    [score += ...] statements. *)
Definition wikipedia_contribution (view_count : nat) : Q :=
  min (inject_Z (Z.of_nat view_count) / 100) 20.

Definition reddit_contribution (post_count : nat) : Q :=
  min (inject_Z (Z.of_nat post_count * 2)) 30.

Definition news_contribution (article_count : Z) : Q :=
  min (inject_Z article_count / 10) 50.

(** [article_count / 10] and [article_count > 0] need a number. *)
Definition as_number (v : value) : Exception + Z :=
  match v with
  | PyInt z => inr z
  | _ => inl (TypeError "unsupported operand type(s) for /")
  end.

(** [news_data.get("totalResults", 0)] needs a dict. *)
Definition get_totalResults (news_data : value) : Exception + value :=
  match news_data with
  | PyDict items => inr (dict_get items "totalResults" (PyInt 0))
  | _ => inl (AttributeError "object has no attribute 'get'")
  end.

Definition raise_for_status (response : Response) : Exception + unit :=
  match http_error response with
  | Some msg => inl (RequestException msg)
  | None => inr tt
  end.

Definition news_url (search_term key : string) : string :=
  "https://newsapi.org/v2/everything?q=" +:+ search_term +:+ "&apiKey=" +:+ key.

Section Aggregator.

Variable cfg : Config.
Variable world : Services.

(** Lines 107-116. *)
Definition wikipedia_block (search_term : string) : M unit :=
  try_except
    (page <- call (CallWikipedia search_term) (wikipedia_page world search_term) ;;
     page_links <- lift (links page) ;;
     let view_count := length page_links in
     add_score (wikipedia_contribution view_count) ;;;
     append_snippet ("Wikipedia links: " +:+ str_int (Z.of_nat view_count)) ;;;
     set_title "Wikipedia Data")
    (fun e =>
       match e with
       | PageError _ => Some (append_snippet "Wikipedia page not found.")
       | DisambiguationError options =>
           Some (append_snippet ("Wikipedia disambiguation: " +:+ options))
       | _ => None
       end).

(** Lines 119-128. *)
Definition reddit_block (search_term : string) : M unit :=
  match reddit cfg with
  | Some client =>
      try_except
        (search_results <- call (CallReddit search_term 10)
                                (reddit_search world client search_term 10) ;;
         let post_count := length search_results in
         add_score (reddit_contribution post_count) ;;;
         append_snippet ("Reddit posts: " +:+ str_int (Z.of_nat post_count)) ;;;
         if (0 <? post_count)%nat then set_title "Reddit Data" else ret tt)
        (fun e => Some (append_snippet ("Reddit error: " +:+ str_exc e)))
  | None => ret tt
  end.

(** Lines 131-143. *)
Definition news_block (search_term : string) : M unit :=
  match NEWSAPI_KEY cfg with
  | Some key =>
      if truthy (Some key) then
        try_except
          (let url := news_url search_term key in
           response <- call (CallNewsAPI url) (requests_get world url) ;;
           lift (raise_for_status response) ;;;
           news_data <- lift (json response) ;;
           total <- lift (get_totalResults news_data) ;;
           article_count <- lift (as_number total) ;;
           add_score (news_contribution article_count) ;;;
           append_snippet ("News articles: " +:+ str_int article_count) ;;;
           if 0 <? article_count then set_title "News Data" else ret tt)
          (fun e =>
             if is_RequestException e
             then Some (append_snippet ("NewsAPI error: " +:+ str_exc e))
             else None)
      else ret tt
  | None => ret tt
  end.

(** Lines 106-143: the three blocks in sequence. *)
Definition analyze_hype_body (search_term : string) : M unit :=
  wikipedia_block search_term ;;;
  reddit_block search_term ;;;
  news_block search_term.

(** The frame on entry: [score = 0.0], [title = "No Data"],
    [snippets = []]; [log] is the log of the calls made so far. *)
Definition initial_frame (log : list Call) : Frame :=
  {| score := 0; title := "No Data"; snippets := []; calls := log |}.

(** [analyze_hype(search_term)]: the raised exception or the returned
    triple [(float(score), title, snippets)], and the log afterwards. *)
Definition analyze_hype (search_term : string) (log : list Call)
  : (Exception + (Q * string * list string)) * list Call :=
  match analyze_hype_body search_term (initial_frame log) with
  | (inl e, fr) => (inl e, calls fr)
  | (inr _, fr) => (inr (score fr, title fr, snippets fr), calls fr)
  end.

End Aggregator.

(** A decoded body that is no JSON object: null, an integer, a string or
    an array.  It has no [get]. *)
Definition not_an_object (v : value) : bool :=
  match v with
  | PyNone | PyInt _ | PyStr _ | PyList _ => true
  | PyDict _ => false
  end.

(** A JSON value that Python does not divide by 10: null, a string, an
    array or an object. *)
Definition not_divisible (v : value) : bool :=
  match v with
  | PyNone | PyStr _ | PyList _ | PyDict _ => true
  | PyInt _ => false
  end.

(** Every article count that NewsAPI reports in [world] is a non-negative
    number. *)
Definition article_counts_nonneg (world : Services) : Prop :=
  forall url response items article_count,
    requests_get world url = inr response ->
    json response = inr (PyDict items) ->
    dict_get items "totalResults" (PyInt 0) = PyInt article_count ->
    0 <= article_count.

(** *** The request handler and its cache *)

Definition CACHE_DURATION_SECONDS : Q := 60 * 15.

Record HypeQuery : Type := { query : string }.

(** [HypeResult], and the [result_data] dict it is built from. *)
Record HypeResult : Type := {
  result_query : string;
  result_score : Q;
  result_title : string;
  result_snippets : list string
}.

(** A value of the [cache] dict: [{'timestamp': ..., 'data': ...}]. *)
Record CacheEntry : Type := {
  timestamp : Q;
  data : HypeResult
}.

(** Line 69: the cache key of a request. *)
Definition cache_key (hype_query : HypeQuery) : string := lower (query hype_query).

(** Two characters that are the same letter up to case: equal, or an ASCII
    capital (codes 65 to 90) and its small letter (32 further). *)
Definition same_letter (c1 c2 : ascii) : Prop :=
  c1 = c2 \/
  ((65 <= N_of_ascii c1 <= 90)%N /\ N_of_ascii c2 = (N_of_ascii c1 + 32)%N) \/
  ((65 <= N_of_ascii c2 <= 90)%N /\ N_of_ascii c1 = (N_of_ascii c2 + 32)%N).

(** Two strings that differ only by the case of their letters. *)
Inductive differ_by_case : string -> string -> Prop :=
| differ_by_case_nil : differ_by_case EmptyString EmptyString
| differ_by_case_cons (c1 c2 : ascii) (s1 s2 : string) :
    same_letter c1 c2 -> differ_by_case s1 s2 ->
    differ_by_case (String c1 s1) (String c2 s2).

(** Lines 82-99: the path taken on a miss, from the cache as the check
    left it. *)
Definition fetch_and_store (cfg : Config) (world : Services) (hype_query : HypeQuery)
    (current_time : Q) (cache : gmap string CacheEntry) (log : list Call)
  : (Exception + HypeResult) * gmap string CacheEntry * list Call :=
  let search_term := cache_key hype_query in
  match analyze_hype cfg world search_term log with
  | (inl e, log') => (inl e, cache, log')
  | (inr (score, title, snippets), log') =>
      let result_data :=
        {| result_query := query hype_query; result_score := score;
           result_title := title; result_snippets := snippets |} in
      (inr result_data,
       <[search_term := {| timestamp := current_time; data := result_data |}]> cache,
       log')
  end.

(** [get_hype(hype_query)], with [current_time] the value [time.time()]
    returns: the response or the raised exception, the cache afterwards and
    the log afterwards. *)
Definition get_hype (cfg : Config) (world : Services) (hype_query : HypeQuery)
    (current_time : Q) (cache : gmap string CacheEntry) (log : list Call)
  : (Exception + HypeResult) * gmap string CacheEntry * list Call :=
  let search_term := cache_key hype_query in
  match cache !! search_term with
  | Some cached_entry =>
      if Qltb (current_time - timestamp cached_entry) CACHE_DURATION_SECONDS
      then (inr (data cached_entry), cache, log)
      else fetch_and_store cfg world hype_query current_time
             (delete search_term cache) log
  | None => fetch_and_store cfg world hype_query current_time cache log
  end.

End Main.

(** ** trends_analyzer.py *)

Module TrendsAnalyzer.
Import Py.

(** The interest-over-time frame: its columns in order, each a name and
    its cells, one per row of the index.  The program reads the cells of
    the keyword column only; they are integers (the 0-100 index). *)
Definition InterestFrame : Type := list (string * list Z).

(** [df.empty]: no column, or no row. *)
Definition empty (df : InterestFrame) : bool :=
  match df with
  | [] => true
  | (_, []) :: _ => true
  | (_, _ :: _) :: _ => false
  end.

(** [df.columns] *)
Definition columns (df : InterestFrame) : list string := map fst df.

(** [df[name]] *)
Fixpoint column (df : InterestFrame) (name : string) : Exception + list Z :=
  match df with
  | [] => inl (KeyError name)
  | (n, cells) :: rest => if String.eqb n name then inr cells else column rest name
  end.

(** [series.iloc[-1]] *)
Definition iloc_last (series : list Z) : Exception + Z :=
  match last series with
  | Some v => inr v
  | None => inl (IndexError "single positional indexer is out-of-bounds")
  end.

(** [series.sum()] *)
Definition sum (series : list Z) : Z := fold_right Z.add 0 series.

(** A row of a related-queries frame. *)
Record RelatedRow : Type := {
  row_query : string;
  row_value : Z
}.

(** [trends_data], when it is not [None]: the dict with its two keys, the
    interest frame and the related-queries dict, whose values are frames
    or [None]. *)
Record TrendsData : Type := {
  interest : InterestFrame;
  related_queries : gmap string (option (list RelatedRow))
}.

(** Lines 73-78: the [if]/[elif] chain. *)
Definition title_bucket (score : Z) : string :=
  if 85 <? score then "Peak Interest!"
  else if 65 <? score then "High Interest"
  else if 40 <? score then "Moderate Interest"
  else if 15 <? score then "Low Interest"
  else "Minimal Interest".

(** Lines 84-89. *)
Definition related_snippets (related_queries : gmap string (option (list RelatedRow)))
  : list string :=
  if decide (related_queries = ∅) then []
  else
    (match related_queries !! "top" with
     | Some (Some top) =>
         map (fun row => "Top related: " +:+ row_query row) (firstn 2 top)
     | _ => []
     end) ++
    (match related_queries !! "rising" with
     | Some (Some rising) =>
         map (fun row => "Rising related: " +:+ row_query row +:+ " (+"
                           +:+ str_int (row_value row) +:+ "%)")
             (firstn 3 rising)
     | _ => []
     end).

Definition bind {A B} (r : Exception + A) (k : A -> Exception + B) : Exception + B :=
  match r with
  | inl e => inl e
  | inr a => k a
  end.

(** [calculate_hype_from_trends(trends_data)]: the raised exception or the
    returned triple [(float(score), title, snippets)]. *)
Definition calculate_hype_from_trends (trends_data : option TrendsData)
  : Exception + (Q * string * list string) :=
  let no_data := inr (0%Q, "No Data", ["Could not retrieve sufficient trend data."]) in
  match trends_data with
  | None => no_data
  | Some trends_data =>
      if empty (interest trends_data) then no_data
      else
        let interest_df := interest trends_data in
        let related_queries := related_queries trends_data in
        bind (match List.filter (fun col => negb (String.eqb col "isPartial"))
                           (columns interest_df) with
              | keyword_column :: _ => inr keyword_column
              | [] => inl (IndexError "list index out of range")
              end) (fun keyword_column =>
        bind (if negb (empty interest_df)
              then bind (column interest_df keyword_column) iloc_last
              else inr 0) (fun score =>
        bind (if score =? 0
              then bind (column interest_df keyword_column) (fun series =>
                         inr (if 0 <? sum series then "Interest Fading?"
                              else title_bucket score))
              else inr (title_bucket score)) (fun title =>
        let snippets := related_snippets related_queries in
        let snippets :=
          match snippets with
          | [] => snippets ++ ["No specific related queries found."]
          | _ :: _ => snippets
          end in
        inr (inject_Z score, title, snippets))))
  end.

(** The frame has rows, and its first column not named 'isPartial' holds
    [series]: the shape of the frame [get_google_trends_data] returns when
    it found data for its keyword. *)
Definition keyword_series (df : InterestFrame) (series : list Z) : Prop :=
  empty df = false /\
  exists before keyword after,
    df = before ++ (keyword, series) :: after /\
    Forall (fun col => fst col = "isPartial") before /\
    keyword <> "isPartial".

(** *** Fetching the data *)

(** The pytrends client, as the outcomes of the calls the program makes:
    the constructor [TrendReq(...)], [build_payload(kw_list, timeframe)],
    and the two requests, which depend on the payload built.
    [related_queries()] answers with a dict from keyword to the dict of
    its 'top' and 'rising' frames. *)
Record Pytrends : Type := {
  TrendReq : Exception + unit;
  pytrends_build_payload : list string -> string -> Exception + unit;
  pytrends_interest_over_time : list string -> string -> Exception + InterestFrame;
  pytrends_related_queries :
    list string -> string ->
    Exception + gmap string (gmap string (option (list RelatedRow)))
}.

(** What [get_google_trends_data] does to the outside, in order. *)
Inductive Event : Type :=
| NewTrendReq
| BuildPayload (kw_list : list string) (timeframe : string)
| Sleep (seconds : Q)
| InterestOverTime
| RelatedQueries.

(** A computation appends to the log of events and either raises or
    returns. *)
Definition IO (A : Type) : Type := list Event -> (Exception + A) * list Event.

Definition io_ret {A} (a : A) : IO A := fun log => (inr a, log).

Definition io_bind {A B} (m : IO A) (k : A -> IO B) : IO B :=
  fun log =>
    match m log with
    | (inl e, log') => (inl e, log')
    | (inr a, log') => k a log'
    end.

Definition io_lift {A} (r : Exception + A) : IO A := fun log => (r, log).

Definition io_call {A} (ev : Event) (r : Exception + A) : IO A :=
  fun log => (r, log ++ [ev]).

(** [time.sleep(seconds)] *)
Definition sleep (seconds : Q) : IO unit := fun log => (inr tt, log ++ [Sleep seconds]).

(** [try: body / except Exception: handler] *)
Definition io_try {A} (body : IO A) (handler : Exception -> IO A) : IO A :=
  fun log =>
    match body log with
    | (inl e, log') => handler e log'
    | (inr a, log') => (inr a, log')
    end.

Declare Scope io_scope.
Delimit Scope io_scope with io.
Notation "x <- m ;; k" := (io_bind m (fun x => k))
  (at level 100, m at next level, right associativity) : io_scope.
Notation "m ;;; k" := (io_bind m (fun _ => k))
  (at level 100, right associativity) : io_scope.

(** The default of the [timeframe] parameter. *)
Definition default_timeframe : string := "today 1-m".

(** Line 26:
    [keyword not in interest_df.columns or interest_df[keyword].sum() == 0] *)
Definition no_sufficient_data (keyword : string) (interest_df : InterestFrame)
  : Exception + bool :=
  if negb (existsb (String.eqb keyword) (columns interest_df)) then inr true
  else bind (column interest_df keyword) (fun series => inr (sum series =? 0)).

(** [get_google_trends_data(keyword, timeframe)]: the raised exception or
    the returned dict or [None], and the log afterwards. *)
Definition get_google_trends_data (pytrends : Pytrends) (keyword timeframe : string)
  : IO (option TrendsData) :=
  (io_call NewTrendReq (TrendReq pytrends) ;;;
   io_try
     (io_call (BuildPayload [keyword] timeframe)
              (pytrends_build_payload pytrends [keyword] timeframe) ;;;
      sleep (1 # 2) ;;;
      interest_df <- io_call InterestOverTime
                       (pytrends_interest_over_time pytrends [keyword] timeframe) ;;
      no_data <- io_lift (no_sufficient_data keyword interest_df) ;;
      if no_data : bool then
        io_ret (Some {| interest := []; related_queries := ∅ |})
      else
        sleep (1 # 2) ;;;
        related_queries_dict <- io_call RelatedQueries
                                  (pytrends_related_queries pytrends [keyword] timeframe) ;;
        io_ret (Some {| interest := interest_df;
                        related_queries := default ∅ (related_queries_dict !! keyword) |}))
     (fun e => io_ret None))%io.

(** What [calculate_hype_from_trends] returns when there is nothing to
    score (line 58). *)
Definition no_data_result : Exception + (Q * string * list string) :=
  inr (0%Q, "No Data", ["Could not retrieve sufficient trend data."]).

(** The events of a run in which every call answers and the data
    suffices. *)
Definition full_run (keyword timeframe : string) : list Event :=
  [NewTrendReq; BuildPayload [keyword] timeframe; Sleep (1 # 2); InterestOverTime;
   Sleep (1 # 2); RelatedQueries].

End TrendsAnalyzer.

(** ** Concrete configurations and worlds *)

Module Scenarios.
Import Py Main.

Definition no_credentials : Config :=
  {| REDDIT_CLIENT_ID := None; REDDIT_CLIENT_SECRET := None; NEWSAPI_KEY := None |}.

Definition news_only : Config :=
  {| REDDIT_CLIENT_ID := None; REDDIT_CLIENT_SECRET := None;
     NEWSAPI_KEY := Some "k3y" |}.

Definition all_credentials : Config :=
  {| REDDIT_CLIENT_ID := Some "id"; REDDIT_CLIENT_SECRET := Some "secret";
     NEWSAPI_KEY := Some "k3y" |}.

(** A page with [n] outbound links. *)
Definition page_with_links (n : nat) : WikipediaPage :=
  {| links := inr (repeat "link" n) |}.

(** A NewsAPI answer reporting [n] articles. *)
Definition news_response (n : Z) : Response :=
  {| http_error := None; json := inr (PyDict [("status", PyStr "ok"); ("totalResults", PyInt n)]) |}.

(** Wikipedia has a page with [n] links, Reddit finds [posts], NewsAPI
    reports [articles]. *)
Definition world_with (n : nat) (posts : list string) (articles : Z) : Services :=
  {| wikipedia_page := fun _ => inr (page_with_links n);
     reddit_search := fun _ _ _ => inr posts;
     requests_get := fun _ => inr (news_response articles) |}.

(** The scenario of the specification: 4500 links and 230 articles. *)
Definition world_python : Services := world_with 4500 [] 230.

(** The machine is offline: every library call fails with the error of its
    HTTP layer.  The [wikipedia] package calls [requests] and lets its
    errors through. *)
Definition world_offline : Services :=
  {| wikipedia_page := fun _ => inl (RequestException "Max retries exceeded with url: /w/api.php");
     reddit_search := fun _ _ _ => inl (OtherException "error with request");
     requests_get := fun _ => inl (RequestException "Max retries exceeded with url: /v2/everything") |}.

(** No page, no post, and NewsAPI answers 401. *)
Definition world_nothing : Services :=
  {| wikipedia_page := fun _ => inl (PageError "Page id does not match any pages.");
     reddit_search := fun _ _ _ => inl (OtherException "received 401 HTTP response");
     requests_get := fun _ =>
       inr {| http_error := Some "401 Client Error: Unauthorized"; json := inr PyNone |} |}.

(** NewsAPI answers with an object that has no "totalResults". *)
Definition world_no_total : Services :=
  {| wikipedia_page := fun _ => inl (PageError "Page id does not match any pages.");
     reddit_search := fun _ _ _ => inr [];
     requests_get := fun _ =>
       inr {| http_error := None; json := inr (PyDict [("status", PyStr "ok")]) |} |}.

(** NewsAPI answers with "totalResults": null. *)
Definition world_null_total : Services :=
  {| wikipedia_page := fun _ => inr (page_with_links 10);
     reddit_search := fun _ _ _ => inr [];
     requests_get := fun _ =>
       inr {| http_error := None; json := inr (PyDict [("totalResults", PyNone)]) |} |}.

(** A result computed earlier for "python", cached at time 100. *)
Definition stored_result : HypeResult :=
  {| result_query := "python"; result_score := 12; result_title := "Wikipedia Data";
     result_snippets := ["Wikipedia links: 1200"] |}.

Definition cache_python : gmap string CacheEntry :=
  <["python" := {| timestamp := 100; data := stored_result |}]> ∅.

End Scenarios.

Module TrendScenarios.
Import Py TrendsAnalyzer.

(** Interest that has died out: the latest value is 0, the values of the
    window add up to 340. *)
Definition fading : TrendsData :=
  {| interest := [("python", [100; 240; 0]); ("isPartial", [0; 0; 1])];
     related_queries := ∅ |}.


(** Steady interest, with related queries of both kinds. *)
Definition steady : TrendsData :=
  {| interest := [("python", [60; 64; 70]); ("isPartial", [0; 0; 0])];
     related_queries :=
       <["top" := Some [ {| row_query := "python download"; row_value := 100 |};
                         {| row_query := "python list"; row_value := 80 |};
                         {| row_query := "python for"; row_value := 75 |} ]]>
       (<["rising" := Some [ {| row_query := "python 3.13"; row_value := 250 |} ]]> ∅) |}.

(** A pytrends client whose every call answers: [frame] for the interest
    over time, [related] for the related queries. *)
Definition pytrends_with (frame : InterestFrame)
    (related : gmap string (gmap string (option (list RelatedRow)))) : Pytrends :=
  {| TrendReq := inr tt;
     pytrends_build_payload := fun _ _ => inr tt;
     pytrends_interest_over_time := fun _ _ => inr frame;
     pytrends_related_queries := fun _ _ => inr related |}.

(** The service answers 429 to the interest request. *)
Definition pytrends_rate_limited : Pytrends :=
  {| TrendReq := inr tt;
     pytrends_build_payload := fun _ _ => inr tt;
     pytrends_interest_over_time := fun _ _ =>
       inl (OtherException "The request failed: Google returned a response with code 429");
     pytrends_related_queries := fun _ _ => inr ∅ |}.

(** The client cannot be built: its constructor fetches a cookie. *)
Definition pytrends_unreachable : Pytrends :=
  {| TrendReq := inl (RequestException "Max retries exceeded with url: /");
     pytrends_build_payload := fun _ _ => inr tt;
     pytrends_interest_over_time := fun _ _ => inr [];
     pytrends_related_queries := fun _ _ => inr ∅ |}.

End TrendScenarios.

(** * Properties *)

(** ** Built-ins *)

Module PyFacts.
Import Py.

Lemma Qltb_lt (a b : Q) : Qltb a b = true <-> (a < b)%Q.
Proof.
  unfold Qltb. rewrite negb_true_iff, <- not_true_iff_false, Qle_bool_iff.
  split; [apply Qnot_le_lt | apply Qlt_not_le].
Qed.

Lemma Qltb_ge (a b : Q) : Qltb a b = false <-> (b <= a)%Q.
Proof.
  unfold Qltb. rewrite negb_false_iff. apply Qle_bool_iff.
Qed.

(** [min] picks one of its arguments, the smaller one. *)
Lemma min_spec (a b : Q) :
  ((b < a)%Q /\ min a b = b) \/ ((a <= b)%Q /\ min a b = a).
Proof.
  unfold min. destruct (Qltb b a) eqn:E.
  - left. split; [now apply Qltb_lt | reflexivity].
  - right. split; [now apply Qltb_ge | reflexivity].
Qed.

Lemma min_le_r (a b : Q) : (min a b <= b)%Q.
Proof. destruct (min_spec a b) as [[H ->] | [H ->]]; lra. Qed.

Lemma min_le_l (a b : Q) : (min a b <= a)%Q.
Proof. destruct (min_spec a b) as [[H ->] | [H ->]]; lra. Qed.

Lemma min_nonneg (a b : Q) : (0 <= a)%Q -> (0 <= b)%Q -> (0 <= min a b)%Q.
Proof. intros Ha Hb. destruct (min_spec a b) as [[H ->] | [H ->]]; lra. Qed.

Lemma min_Qmin (a b : Q) : (min a b == Qmin a b)%Q.
Proof.
  destruct (min_spec a b) as [[H ->] | [H ->]].
  - symmetry. apply Q.min_r. lra.
  - symmetry. apply Q.min_l. exact H.
Qed.

End PyFacts.

(** ** The aggregator, block by block *)

Module MainFacts.
Import Py PyFacts Main.

Lemma wikipedia_contribution_bounds (view_count : nat) :
  (0 <= wikipedia_contribution view_count <= 20)%Q.
Proof.
  unfold wikipedia_contribution. split; [apply min_nonneg | apply min_le_r]; [|lra].
  apply Qle_shift_div_l; [lra|]. rewrite Qmult_0_l.
  change 0%Q with (inject_Z 0). rewrite <- Zle_Qle. lia.
Qed.

Lemma reddit_contribution_bounds (post_count : nat) :
  (0 <= reddit_contribution post_count <= 30)%Q.
Proof.
  unfold reddit_contribution. split; [apply min_nonneg | apply min_le_r]; [|lra].
  change 0%Q with (inject_Z 0). rewrite <- Zle_Qle. lia.
Qed.

Lemma news_contribution_le (article_count : Z) :
  (news_contribution article_count <= 50)%Q.
Proof. apply min_le_r. Qed.

Lemma news_contribution_nonneg (article_count : Z) :
  0 <= article_count -> (0 <= news_contribution article_count)%Q.
Proof.
  intros H. unfold news_contribution. apply min_nonneg; [|lra].
  apply Qle_shift_div_l; [lra|]. rewrite Qmult_0_l.
  change 0%Q with (inject_Z 0). now rewrite <- Zle_Qle.
Qed.

Section Blocks.

Variable cfg : Config.
Variable world : Services.
Variable search_term : string.

(** Unfold the monad down to matches on the outcomes of the world. *)
Ltac run :=
  unfold wikipedia_block, reddit_block, news_block, try_except, bind, call,
    lift, add_score, append_snippet, set_title, ret, raise_for_status,
    get_totalResults, as_number; cbn [fst snd score title snippets calls].

(** Split on every outcome the goal still matches on. *)
Ltac outcomes :=
  run; repeat case_match; simplify_eq; cbn [fst snd score title snippets calls].

(** What the Wikipedia block does to a frame, by the outcome of the
    look-up. *)
Lemma wikipedia_block_ok (fr : Frame) (page : WikipediaPage) (page_links : list string) :
  wikipedia_page world search_term = inr page ->
  links page = inr page_links ->
  wikipedia_block world search_term fr =
    (inr tt,
     {| score := (score fr + wikipedia_contribution (length page_links))%Q;
        title := "Wikipedia Data";
        snippets := snippets fr ++
          ["Wikipedia links: " +:+ str_int (Z.of_nat (length page_links))];
        calls := calls fr ++ [CallWikipedia search_term] |}).
Proof. intros Hp Hl. run. rewrite Hp. cbn. rewrite Hl. reflexivity. Qed.

(** A look-up that fails with one of the two errors the block names
    leaves one snippet and nothing else. *)
Lemma wikipedia_block_not_found (fr : Frame) (msg : string) :
  wikipedia_page world search_term = inl (PageError msg) ->
  wikipedia_block world search_term fr =
    (inr tt,
     {| score := score fr; title := title fr;
        snippets := snippets fr ++ ["Wikipedia page not found."];
        calls := calls fr ++ [CallWikipedia search_term] |}).
Proof. intros Hp. run. rewrite Hp. reflexivity. Qed.

Lemma wikipedia_block_ambiguous (fr : Frame) (options : string) :
  wikipedia_page world search_term = inl (DisambiguationError options) ->
  wikipedia_block world search_term fr =
    (inr tt,
     {| score := score fr; title := title fr;
        snippets := snippets fr ++ ["Wikipedia disambiguation: " +:+ options];
        calls := calls fr ++ [CallWikipedia search_term] |}).
Proof. intros Hp. run. rewrite Hp. reflexivity. Qed.

(** Any other error of the look-up leaves the block. *)
Lemma wikipedia_block_raises (fr : Frame) (e : Exception) :
  wikipedia_page world search_term = inl e ->
  (forall msg, e <> PageError msg) ->
  (forall options, e <> DisambiguationError options) ->
  wikipedia_block world search_term fr =
    (inl e,
     {| score := score fr; title := title fr; snippets := snippets fr;
        calls := calls fr ++ [CallWikipedia search_term] |}).
Proof.
  intros Hp H1 H2. run. rewrite Hp.
  destruct e; try reflexivity; [destruct (H1 msg) | destruct (H2 options)]; reflexivity.
Qed.

(** The Wikipedia block issues exactly one call, whatever happens. *)
Lemma wikipedia_block_calls (fr : Frame) :
  calls (snd (wikipedia_block world search_term fr)) =
  calls fr ++ [CallWikipedia search_term].
Proof. outcomes; reflexivity. Qed.

Lemma wikipedia_block_score (fr : Frame) :
  (score fr <= score (snd (wikipedia_block world search_term fr))
            <= score fr + 20)%Q.
Proof.
  outcomes; try (pose proof (wikipedia_contribution_bounds (length l))); lra.
Qed.

(** Without a client the Reddit block is skipped: the frame, log included,
    is untouched. *)
Lemma reddit_block_disabled (fr : Frame) :
  reddit cfg = None -> reddit_block cfg world search_term fr = (inr tt, fr).
Proof. intros H. run. rewrite H. reflexivity. Qed.

(** With a client, the block makes one call and never raises. *)
Lemma reddit_block_ok (fr : Frame) (client : Reddit) (search_results : list string) :
  reddit cfg = Some client ->
  reddit_search world client search_term 10 = inr search_results ->
  reddit_block cfg world search_term fr =
    (inr tt,
     {| score := (score fr + reddit_contribution (length search_results))%Q;
        title := if (0 <? length search_results)%nat then "Reddit Data" else title fr;
        snippets := snippets fr ++
          ["Reddit posts: " +:+ str_int (Z.of_nat (length search_results))];
        calls := calls fr ++ [CallReddit search_term 10] |}).
Proof.
  intros Hc Hs. run. rewrite Hc. run. rewrite Hs.
  destruct (0 <? length search_results)%nat; reflexivity.
Qed.

Lemma reddit_block_error (fr : Frame) (client : Reddit) (e : Exception) :
  reddit cfg = Some client ->
  reddit_search world client search_term 10 = inl e ->
  reddit_block cfg world search_term fr =
    (inr tt,
     {| score := score fr; title := title fr;
        snippets := snippets fr ++ ["Reddit error: " +:+ str_exc e];
        calls := calls fr ++ [CallReddit search_term 10] |}).
Proof. intros Hc Hs. run. rewrite Hc. run. rewrite Hs. reflexivity. Qed.

Lemma reddit_block_returns (fr : Frame) :
  fst (reddit_block cfg world search_term fr) = inr tt.
Proof. outcomes; reflexivity. Qed.

Lemma reddit_block_calls (fr : Frame) :
  calls (snd (reddit_block cfg world search_term fr)) =
  calls fr ++
    (match reddit cfg with
     | Some _ => [CallReddit search_term 10]
     | None => []
     end).
Proof.
  outcomes; rewrite ?app_nil_r; reflexivity.
Qed.

Lemma reddit_block_score (fr : Frame) :
  (score fr <= score (snd (reddit_block cfg world search_term fr))
            <= score fr + 30)%Q.
Proof.
  outcomes; try (pose proof (reddit_contribution_bounds (length l))); lra.
Qed.

(** Without a key (unset or empty) the NewsAPI block is skipped. *)
Lemma news_block_disabled (fr : Frame) :
  truthy (NEWSAPI_KEY cfg) = false ->
  news_block cfg world search_term fr = (inr tt, fr).
Proof.
  intros H. unfold news_block. destruct (NEWSAPI_KEY cfg) as [key|]; [|reflexivity].
  rewrite H. reflexivity.
Qed.

Lemma news_block_ok (fr : Frame) (key : string) (response : Response)
    (items : list (string * value)) (article_count : Z) :
  NEWSAPI_KEY cfg = Some key -> truthy (Some key) = true ->
  requests_get world (news_url search_term key) = inr response ->
  http_error response = None ->
  json response = inr (PyDict items) ->
  dict_get items "totalResults" (PyInt 0) = PyInt article_count ->
  news_block cfg world search_term fr =
    (inr tt,
     {| score := (score fr + news_contribution article_count)%Q;
        title := if 0 <? article_count then "News Data" else title fr;
        snippets := snippets fr ++ ["News articles: " +:+ str_int article_count];
        calls := calls fr ++ [CallNewsAPI (news_url search_term key)] |}).
Proof.
  intros Hk Ht Hg He Hj Hd. unfold news_block. rewrite Hk, Ht. run.
  rewrite Hg. cbn. rewrite He. cbn. rewrite Hj. cbn. rewrite Hd. cbn.
  destruct (0 <? article_count); reflexivity.
Qed.

(** An error of the HTTP layer, at the request or at the status check,
    leaves one snippet. *)
Lemma news_block_request_error (fr : Frame) (key msg : string) :
  NEWSAPI_KEY cfg = Some key -> truthy (Some key) = true ->
  (requests_get world (news_url search_term key) = inl (RequestException msg) \/
   exists response,
     requests_get world (news_url search_term key) = inr response /\
     http_error response = Some msg) ->
  news_block cfg world search_term fr =
    (inr tt,
     {| score := score fr; title := title fr;
        snippets := snippets fr ++ ["NewsAPI error: " +:+ msg];
        calls := calls fr ++ [CallNewsAPI (news_url search_term key)] |}).
Proof.
  intros Hk Ht H. unfold news_block. rewrite Hk, Ht. run.
  destruct H as [Hg | (response & Hg & He)]; rewrite Hg; cbn;
    [|rewrite He]; reflexivity.
Qed.

Lemma news_block_calls (fr : Frame) :
  calls (snd (news_block cfg world search_term fr)) =
  calls fr ++
    (match NEWSAPI_KEY cfg with
     | Some key =>
         if truthy (Some key) then [CallNewsAPI (news_url search_term key)] else []
     | None => []
     end).
Proof.
  outcomes; rewrite ?app_nil_r; reflexivity.
Qed.

Lemma news_block_score_le (fr : Frame) :
  (score (snd (news_block cfg world search_term fr)) <= score fr + 50)%Q.
Proof.
  outcomes;
    try match goal with
        | |- context [news_contribution ?a] => pose proof (news_contribution_le a)
        end; lra.
Qed.

Lemma news_block_score_ge (fr : Frame) :
  article_counts_nonneg world ->
  (score fr <= score (snd (news_block cfg world search_term fr)))%Q.
Proof.
  intros Hnn. outcomes;
    try match goal with
        | |- context [news_contribution ?a] =>
            pose proof (news_contribution_nonneg a ltac:(eauto))
        end; lra.
Qed.

(** *** The whole of [analyze_hype] *)

(** The log grows by the Wikipedia call and then by the calls of the
    enabled adapters that were reached. *)
Lemma analyze_hype_log (log : list Call) :
  exists more,
    snd (analyze_hype cfg world search_term log) =
      log ++ CallWikipedia search_term :: more /\
    Forall (fun c =>
              (is_reddit_call c = true -> reddit cfg <> None) /\
              (is_news_call c = true -> truthy (NEWSAPI_KEY cfg) = true) /\
              is_wikipedia_call c = false) more.
Proof.
  unfold analyze_hype, analyze_hype_body, bind.
  pose proof (wikipedia_block_calls (initial_frame log)) as Hw.
  destruct (wikipedia_block world search_term (initial_frame log)) as [[e | []] fr1];
    cbn [snd calls initial_frame] in Hw.
  { exists []. cbn [snd]. rewrite Hw. split; [reflexivity | constructor]. }
  pose proof (reddit_block_calls fr1) as Hr.
  pose proof (reddit_block_returns fr1) as Hret.
  destruct (reddit_block cfg world search_term fr1) as [[e | []] fr2];
    cbn [fst snd] in Hr, Hret; [discriminate|].
  pose proof (news_block_calls fr2) as Hn.
  destruct (news_block cfg world search_term fr2) as [[e | []] fr3];
    cbn [snd] in Hn |- *; rewrite Hn, Hr, Hw, <- !app_assoc; cbn [app];
    eexists; (split; [reflexivity|]);
    apply Forall_app; split;
    destruct (reddit cfg), (NEWSAPI_KEY cfg) as [[|c key]|];
    cbn; repeat constructor; cbn; congruence.
Qed.

(** The score only grows, and by no more than 20 + 30 + 50. *)
Lemma analyze_hype_body_score (fr : Frame) :
  article_counts_nonneg world ->
  (score fr <= score (snd (analyze_hype_body cfg world search_term fr))
            <= score fr + 100)%Q.
Proof.
  intros Hnn. unfold analyze_hype_body, bind.
  pose proof (wikipedia_block_score fr) as Hw.
  destruct (wikipedia_block world search_term fr) as [[e | []] fr1];
    cbn [snd] in Hw |- *; [lra|].
  pose proof (reddit_block_score fr1) as Hr.
  destruct (reddit_block cfg world search_term fr1) as [[e | []] fr2];
    cbn [snd] in Hr |- *; [lra|].
  pose proof (news_block_score_ge fr2 Hnn) as Hn1.
  pose proof (news_block_score_le fr2) as Hn2.
  destruct (news_block cfg world search_term fr2) as [[e | []] fr3];
    cbn [snd] in Hn1, Hn2 |- *; lra.
Qed.

(** When every adapter that is switched on fails with an error its block
    catches, the result is the zero score, the title "No Data" and one
    snippet per adapter that is switched on. *)
Lemma analyze_hype_caught_failures (log : list Call) (e : Exception) :
  wikipedia_page world search_term = inl e ->
  ((exists msg, e = PageError msg) \/ (exists options, e = DisambiguationError options)) ->
  (forall client, reddit cfg = Some client ->
     exists e', reddit_search world client search_term 10 = inl e') ->
  (forall key, NEWSAPI_KEY cfg = Some key -> truthy (Some key) = true ->
     exists msg,
       requests_get world (news_url search_term key) = inl (RequestException msg) \/
       exists response,
         requests_get world (news_url search_term key) = inr response /\
         http_error response = Some msg) ->
  exists snippets log',
    analyze_hype cfg world search_term log = (inr (0%Q, "No Data", snippets), log') /\
    length snippets =
      (1 + (match reddit cfg with Some _ => 1 | None => 0 end)
         + (if truthy (NEWSAPI_KEY cfg) then 1 else 0))%nat.
Proof.
  intros Hw He Hr Hn. unfold analyze_hype, analyze_hype_body, bind.
  assert (exists s, wikipedia_block world search_term (initial_frame log) =
            (inr tt, {| score := 0; title := "No Data"; snippets := [s];
                        calls := log ++ [CallWikipedia search_term] |})) as [s ->].
  { destruct He as [[msg ->] | [options ->]];
      [rewrite (wikipedia_block_not_found _ msg Hw)
      |rewrite (wikipedia_block_ambiguous _ options Hw)];
      eexists; reflexivity. }
  set (fr1 := Build_Frame _ _ _ _).
  assert (exists l2 fr2, reddit_block cfg world search_term fr1 = (inr tt, fr2) /\
            score fr2 = 0%Q /\ title fr2 = "No Data" /\ snippets fr2 = s :: l2 /\
            length l2 = match reddit cfg with Some _ => 1 | None => 0 end%nat)
    as (l2 & fr2 & -> & Hs2 & Ht2 & Hsn2 & Hl2).
  { destruct (reddit cfg) as [client|] eqn:Hc.
    - destruct (Hr client eq_refl) as [e' He'].
      rewrite (reddit_block_error fr1 client e' Hc He').
      eexists [_], _. repeat split.
    - rewrite (reddit_block_disabled fr1 Hc). exists [], fr1. repeat split. }
  assert (exists l3 fr3, news_block cfg world search_term fr2 = (inr tt, fr3) /\
            score fr3 = 0%Q /\ title fr3 = "No Data" /\ snippets fr3 = s :: l2 ++ l3 /\
            length l3 = (if truthy (NEWSAPI_KEY cfg) then 1 else 0)%nat)
    as (l3 & fr3 & -> & Hs3 & Ht3 & Hsn3 & Hl3).
  { destruct (truthy (NEWSAPI_KEY cfg)) eqn:Hk.
    - destruct (NEWSAPI_KEY cfg) as [key|] eqn:Hkey; [|discriminate].
      destruct (Hn key eq_refl Hk) as [msg Hmsg].
      rewrite (news_block_request_error fr2 key msg Hkey Hk Hmsg).
      eexists [_], _. cbn [score title snippets]. rewrite Hsn2. repeat split; assumption.
    - rewrite (news_block_disabled fr2 Hk). exists [], fr2.
      rewrite app_nil_r. repeat split; assumption. }
  rewrite Hs3, Ht3, Hsn3. do 2 eexists. split; [reflexivity|].
  cbn [length]. rewrite length_app, Hl2, Hl3. lia.
Qed.

End Blocks.

(** *** Claims about the aggregator *)

Import Scenarios.

Lemma absent_credentials_no_client (cfg : Config) :
  truthy (REDDIT_CLIENT_ID cfg) = false \/ truthy (REDDIT_CLIENT_SECRET cfg) = false ->
  reddit cfg = None.
Proof.
  unfold reddit.
  destruct (REDDIT_CLIENT_ID cfg) as [[|c1 id]|], (REDDIT_CLIENT_SECRET cfg) as [[|c2 secret]|];
    cbn; intros [H | H]; congruence.
Qed.

Lemma world_with_nonneg (n : nat) (posts : list string) (articles : Z) :
  0 <= articles -> article_counts_nonneg (world_with n posts articles).
Proof.
  intros Ha url response items article_count Hg Hj Hd.
  cbn in Hg. injection Hg as <-. cbn in Hj. injection Hj as <-.
  cbn in Hd. injection Hd as <-. exact Ha.
Qed.

(** Three adapters switched on, three failures their blocks catch. *)
Example all_caught_failures :
  analyze_hype all_credentials world_nothing "python" [] =
    (inr (0%Q, "No Data",
          ["Wikipedia page not found.";
           "Reddit error: received 401 HTTP response";
           "NewsAPI error: 401 Client Error: Unauthorized"]),
     [CallWikipedia "python"; CallReddit "python" 10;
      CallNewsAPI (news_url "python" "k3y")]).
Proof. reflexivity. Qed.

(** C1 (the code departs from it).  An adapter error is supposed never to
    leave [analyze_hype].  With the network down the Wikipedia look-up
    fails with the connection error of its HTTP layer, which neither
    [except] clause of the Wikipedia block names: [analyze_hype] raises it,
    before Reddit and NewsAPI are tried. *)
Theorem wikipedia_error_leaves_analyze_hype :
  analyze_hype all_credentials world_offline "python" [] =
    (inl (RequestException "Max retries exceeded with url: /w/api.php"),
     [CallWikipedia "python"]).
Proof. vm_compute. reflexivity. Qed.

(** C4 (the code departs from it).  The only adapter switched on is
    Wikipedia and it fails; instead of the zero score, "No Data" and one
    snippet, [analyze_hype] raises. *)
Theorem all_adapters_fail_raises :
  reddit no_credentials = None /\
  truthy (NEWSAPI_KEY no_credentials) = false /\
  wikipedia_page world_offline "python" =
    inl (RequestException "Max retries exceeded with url: /w/api.php") /\
  analyze_hype no_credentials world_offline "python" [] =
    (inl (RequestException "Max retries exceeded with url: /w/api.php"),
     [CallWikipedia "python"]).
Proof. repeat split. Qed.

(** C3, as the code has it.  When the credentials of an adapter are absent
    (unset or empty), its block is skipped: it does not raise, it leaves
    the score, the title and the snippets as they were - no snippet is
    added for the adapter - and [analyze_hype] logs no call to that
    service. *)
Theorem disabled_adapter_is_skipped (cfg : Config) (world : Services) (search_term : string) :
  (truthy (REDDIT_CLIENT_ID cfg) = false \/ truthy (REDDIT_CLIENT_SECRET cfg) = false ->
   (forall fr, reddit_block cfg world search_term fr = (inr tt, fr)) /\
   (forall log c, In c (snd (analyze_hype cfg world search_term log)) ->
                  is_reddit_call c = true -> In c log)) /\
  (truthy (NEWSAPI_KEY cfg) = false ->
   (forall fr, news_block cfg world search_term fr = (inr tt, fr)) /\
   (forall log c, In c (snd (analyze_hype cfg world search_term log)) ->
                  is_news_call c = true -> In c log)).
Proof.
  split; intros Habs; (split; [intros fr | intros log c Hin Hc]).
  - apply reddit_block_disabled, absent_credentials_no_client, Habs.
  - destruct (analyze_hype_log cfg world search_term log) as (more & Hlog & Hmore).
    rewrite Hlog in Hin. apply in_app_or in Hin as [Hin | [<- | Hin]];
      [assumption | discriminate |].
    rewrite Forall_forall in Hmore. apply list_elem_of_In, Hmore in Hin.
    destruct Hin as (Hred & _ & _).
    destruct (Hred Hc). apply absent_credentials_no_client, Habs.
  - apply news_block_disabled, Habs.
  - destruct (analyze_hype_log cfg world search_term log) as (more & Hlog & Hmore).
    rewrite Hlog in Hin. apply in_app_or in Hin as [Hin | [<- | Hin]];
      [assumption | discriminate |].
    rewrite Forall_forall in Hmore. apply list_elem_of_In, Hmore in Hin.
    destruct Hin as (_ & Hnews & _). rewrite (Hnews Hc) in Habs. discriminate.
Qed.

Lemma disabled_adapter_is_skipped_witness :
  reddit_block no_credentials world_python "python" (initial_frame []) =
    (inr tt, initial_frame []) /\
  news_block no_credentials world_python "python" (initial_frame []) =
    (inr tt, initial_frame []) /\
  forall c, In c (snd (analyze_hype no_credentials world_python "python" [])) ->
            is_reddit_call c = false /\ is_news_call c = false.
Proof.
  destruct (disabled_adapter_is_skipped no_credentials world_python "python")
    as [Hreddit Hnews].
  destruct (Hreddit (or_introl eq_refl)) as [Hr1 Hr2].
  destruct (Hnews eq_refl) as [Hn1 Hn2].
  split; [apply Hr1 | split; [apply Hn1|]].
  intros c Hin. split.
  - destruct (is_reddit_call c) eqn:E; [destruct (Hr2 [] c Hin E) | reflexivity].
  - destruct (is_news_call c) eqn:E; [destruct (Hn2 [] c Hin E) | reflexivity].
Defined.

(** C3, as stated, fails: without Reddit credentials the Reddit block does
    not append one snippet to the snippets it was given, and with no
    credentials at all the snippets [analyze_hype] returns are the one of
    Wikipedia. *)
Lemma disabled_reddit_appends_no_snippet :
  reddit no_credentials = None /\
  (~ exists snippet,
       snippets (snd (reddit_block no_credentials world_python "python" (initial_frame []))) =
       snippets (initial_frame []) ++ [snippet]) /\
  exists s,
    analyze_hype no_credentials world_python "python" [] =
      (inr (s, "Wikipedia Data", ["Wikipedia links: 4500"]), [CallWikipedia "python"]).
Proof.
  split; [reflexivity|]. split.
  - intros [snippet H]. vm_compute in H. discriminate.
  - eexists. vm_compute. reflexivity.
Qed.

(** C6.  Each contribution is the documented minimum and so stays under
    its clamp (20, 30, 50); no block of [analyze_hype] raises the score by
    more than its clamp, whatever the services answer; and 100,000 links
    give a score of exactly 20. *)
Theorem contributions_clamped :
  (forall (links posts : nat) (articles : Z),
     (wikipedia_contribution links == Qmin (inject_Z (Z.of_nat links) / 100) 20)%Q /\
     (wikipedia_contribution links <= 20)%Q /\
     (reddit_contribution posts == Qmin (inject_Z (Z.of_nat posts * 2)) 30)%Q /\
     (reddit_contribution posts <= 30)%Q /\
     (news_contribution articles == Qmin (inject_Z articles / 10) 50)%Q /\
     (news_contribution articles <= 50)%Q) /\
  (forall cfg world search_term fr,
     (score (snd (wikipedia_block world search_term fr)) <= score fr + 20)%Q /\
     (score (snd (reddit_block cfg world search_term fr)) <= score fr + 30)%Q /\
     (score (snd (news_block cfg world search_term fr)) <= score fr + 50)%Q) /\
  (wikipedia_contribution (Z.to_nat 100000) == 20)%Q /\
  (exists s title snippets log,
     analyze_hype no_credentials (world_with (Z.to_nat 100000) [] 0) "python" [] =
       (inr (s, title, snippets), log) /\ (s == 20)%Q).
Proof.
  split; [|split; [|split]].
  - intros links posts articles.
    repeat split; try apply min_Qmin; try apply min_le_r.
  - intros cfg world search_term fr. repeat split.
    + apply wikipedia_block_score.
    + apply reddit_block_score.
    + apply news_block_score_le.
  - vm_compute. reflexivity.
  - destruct (analyze_hype no_credentials (world_with (Z.to_nat 100000) [] 0) "python" [])
      as [[e | [[s title] snippets]] log] eqn:E; vm_compute in E; [discriminate|].
    exists s, title, snippets, log. split; [reflexivity|].
    injection E as <- _ _ _. reflexivity.
Qed.

(** C7, as the code has it.  With 4500 links on the page, no Reddit client
    and 230 articles reported, [analyze_hype] returns the score 43, the
    title "News Data" and two snippets, one for Wikipedia and one for
    NewsAPI; the calls made are the look-up and the news request. *)
Theorem scenario_python (cfg : Config) (world : Services) (search_term : string)
    (log : list Call) (page : WikipediaPage) (page_links : list string)
    (key : string) (response : Response) (items : list (string * value)) :
  wikipedia_page world search_term = inr page ->
  links page = inr page_links ->
  length page_links = 4500%nat ->
  reddit cfg = None ->
  NEWSAPI_KEY cfg = Some key ->
  truthy (Some key) = true ->
  requests_get world (news_url search_term key) = inr response ->
  http_error response = None ->
  json response = inr (PyDict items) ->
  dict_get items "totalResults" (PyInt 0) = PyInt 230 ->
  exists s,
    analyze_hype cfg world search_term log =
      (inr (s, "News Data", ["Wikipedia links: 4500"; "News articles: 230"]),
       log ++ [CallWikipedia search_term; CallNewsAPI (news_url search_term key)]) /\
    (s == 43)%Q.
Proof.
  intros Hp Hl Hlen Hr Hk Ht Hg He Hj Hd.
  unfold analyze_hype, analyze_hype_body, bind.
  rewrite (wikipedia_block_ok world search_term _ page page_links Hp Hl).
  rewrite (reddit_block_disabled cfg world search_term _ Hr).
  rewrite (news_block_ok cfg world search_term _ key response items 230 Hk Ht Hg He Hj Hd).
  rewrite Hlen. cbn [score title snippets calls initial_frame].
  exists (0 + wikipedia_contribution 4500 + news_contribution 230)%Q. split.
  - apply f_equal2; [|rewrite <- app_assoc; reflexivity].
    apply f_equal. apply f_equal2; [|vm_compute; reflexivity].
    apply f_equal. vm_compute. reflexivity.
  - vm_compute. reflexivity.
Qed.

Lemma scenario_python_witness :
  exists s,
    analyze_hype news_only world_python "python" [] =
      (inr (s, "News Data", ["Wikipedia links: 4500"; "News articles: 230"]),
       [CallWikipedia "python";
        CallNewsAPI (news_url "python" "k3y")]) /\
    (s == 43)%Q.
Proof.
  apply (scenario_python news_only world_python "python" []
           (page_with_links 4500) (repeat "link" 4500) "k3y" (news_response 230)
           [("status", PyStr "ok"); ("totalResults", PyInt 230)]);
    vm_compute; reflexivity.
Defined.

(** C7, as stated, fails: in that scenario the snippets are not three. *)
Lemma scenario_python_not_three_snippets :
  ~ exists s title snippets log,
      analyze_hype news_only world_python "python" [] = (inr (s, title, snippets), log) /\
      length snippets = 3%nat.
Proof.
  intros (s & title & snippets & log & H & Hlen).
  vm_compute in H. injection H as <- <- <- <-. discriminate.
Qed.

(** C9.  When the article counts the news service reports are not
    negative, the score [analyze_hype] returns lies between 0 and 100. *)
Theorem analyze_hype_score_range (cfg : Config) (world : Services) (search_term : string)
    (log log' : list Call) (s : Q) (title : string) (snippets : list string) :
  article_counts_nonneg world ->
  analyze_hype cfg world search_term log = (inr (s, title, snippets), log') ->
  (0 <= s <= 100)%Q.
Proof.
  intros Hnn. unfold analyze_hype.
  pose proof (analyze_hype_body_score cfg world search_term (initial_frame log) Hnn) as Hb.
  destruct (analyze_hype_body cfg world search_term (initial_frame log)) as [[e | []] fr];
    [discriminate|].
  intros [= <- _ _ _]. cbn [snd score initial_frame] in Hb. lra.
Qed.

Lemma analyze_hype_score_range_witness :
  exists s title snippets log,
    analyze_hype all_credentials (world_with 4500 ["p1"; "p2"] 230) "python" [] =
      (inr (s, title, snippets), log) /\
    (0 <= s <= 100)%Q.
Proof.
  destruct (analyze_hype all_credentials (world_with 4500 ["p1"; "p2"] 230) "python" [])
    as [[e | [[s title] snippets]] log] eqn:E.
  - vm_compute in E. discriminate.
  - exists s, title, snippets, log. split; [reflexivity|].
    apply (analyze_hype_score_range all_credentials (world_with 4500 ["p1"; "p2"] 230)
             "python" [] log s title snippets).
    + apply world_with_nonneg. lia.
    + exact E.
Defined.

(** *** Claims about the request handler *)

Lemma lower_ascii_same_letter (c1 c2 : ascii) :
  same_letter c1 c2 -> lower_ascii c1 = lower_ascii c2.
Proof.
  assert (Hcap : forall a b : ascii,
             (65 <= N_of_ascii a <= 90)%N -> N_of_ascii b = (N_of_ascii a + 32)%N ->
             lower_ascii a = lower_ascii b).
  { intros a b Ha Hb. unfold lower_ascii. rewrite Hb.
    assert (b = ascii_of_N (N_of_ascii a + 32)) as Eb
      by (rewrite <- Hb; symmetry; apply ascii_N_embedding).
    replace (65 <=? N_of_ascii a)%N with true by (symmetry; apply N.leb_le; lia).
    replace (N_of_ascii a <=? 90)%N with true by (symmetry; apply N.leb_le; lia).
    replace (N_of_ascii a + 32 <=? 90)%N with false by (symmetry; apply N.leb_gt; lia).
    rewrite andb_false_r. cbn. symmetry. exact Eb. }
  intros [-> | [[H1 H2] | [H1 H2]]]; [reflexivity | |symmetry]; now apply Hcap.
Qed.

Lemma lower_differ_by_case (s1 s2 : string) :
  differ_by_case s1 s2 -> lower s1 = lower s2.
Proof.
  induction 1 as [|c1 c2 s1 s2 Hc _ IH]; [reflexivity|].
  cbn [lower]. rewrite IH, (lower_ascii_same_letter c1 c2 Hc). reflexivity.
Qed.

(** The log of [get_hype] depends on the request through its key only. *)
Lemma get_hype_log_by_key (cfg : Config) (world : Services) (q1 q2 : HypeQuery)
    (now : Q) (cache : gmap string CacheEntry) (log : list Call) :
  cache_key q1 = cache_key q2 ->
  snd (get_hype cfg world q1 now cache log) = snd (get_hype cfg world q2 now cache log).
Proof.
  intros Hkey. unfold get_hype, fetch_and_store. rewrite Hkey.
  repeat case_match; simplify_eq; reflexivity.
Qed.

(** C2, as the code has it.  Two queries that differ only by the case of
    their ASCII letters (A to Z against a to z) have the same cache key;
    they read the same cache entry and make the same adapter calls. *)
Theorem cache_key_ignores_case (q1 q2 : HypeQuery) :
  differ_by_case (query q1) (query q2) ->
  cache_key q1 = cache_key q2 /\
  forall cfg world now (cache : gmap string CacheEntry) log,
    cache !! cache_key q1 = cache !! cache_key q2 /\
    snd (get_hype cfg world q1 now cache log) = snd (get_hype cfg world q2 now cache log).
Proof.
  intros H. apply lower_differ_by_case in H.
  split; [exact H|]. intros cfg world now cache log. split.
  - unfold cache_key. rewrite H. reflexivity.
  - apply get_hype_log_by_key. exact H.
Qed.

Lemma cache_key_ignores_case_witness :
  cache_key {| query := "PyThon 3" |} = cache_key {| query := "pYthon 3" |}.
Proof.
  apply (cache_key_ignores_case {| query := "PyThon 3" |} {| query := "pYthon 3" |}).
  repeat first
    [ apply differ_by_case_nil
    | apply differ_by_case_cons;
      [first [ left; reflexivity
             | right; left; vm_compute; intuition congruence
             | right; right; vm_compute; intuition congruence ]|] ].
Defined.

(** C2, as stated, fails: a trailing or a leading space changes the key. *)
Lemma cache_key_keeps_whitespace :
  cache_key {| query := "python" +:+ " " |} <> cache_key {| query := "python" |} /\
  cache_key {| query := " " +:+ "python" |} <> cache_key {| query := "python" |}.
Proof. split; vm_compute; discriminate. Qed.

(** The cache policy.  The freshness window is 900 seconds.  Where the cache has an
    entry for the key of the request: within the window [get_hype] returns
    the stored data, and neither the cache nor the log changes; once the
    window has elapsed, the aggregation runs, the old entry is gone, and
    what the aggregation returns is stored under the same key with the
    current time (nothing is stored if it raises); other keys are left
    alone. *)
Theorem cache_freshness (cfg : Config) (world : Services) (hype_query : HypeQuery)
    (now : Q) (cache : gmap string CacheEntry) (log : list Call) (entry : CacheEntry) :
  cache !! cache_key hype_query = Some entry ->
  (CACHE_DURATION_SECONDS == 900)%Q /\
  ((now - timestamp entry < CACHE_DURATION_SECONDS)%Q ->
   get_hype cfg world hype_query now cache log = (inr (data entry), cache, log)) /\
  (~ (now - timestamp entry < CACHE_DURATION_SECONDS)%Q ->
   exists outcome cache' log',
     get_hype cfg world hype_query now cache log = (outcome, cache', log') /\
     log' = snd (analyze_hype cfg world (cache_key hype_query) log) /\
     (forall k, k <> cache_key hype_query -> cache' !! k = cache !! k) /\
     match fst (analyze_hype cfg world (cache_key hype_query) log) with
     | inr (score, title, snippets) =>
         let result :=
           {| result_query := query hype_query; result_score := score;
              result_title := title; result_snippets := snippets |} in
         outcome = inr result /\
         cache' !! cache_key hype_query = Some {| timestamp := now; data := result |}
     | inl e =>
         outcome = inl e /\ cache' !! cache_key hype_query = None
     end).
Proof.
  intros Hentry. split; [reflexivity|]. split.
  - intros Hfresh. unfold get_hype. rewrite Hentry.
    apply Qltb_lt in Hfresh. rewrite Hfresh. reflexivity.
  - intros Hstale. unfold get_hype. rewrite Hentry.
    destruct (Qltb (now - timestamp entry) CACHE_DURATION_SECONDS) eqn:E;
      [apply Qltb_lt in E; contradiction|].
    unfold fetch_and_store.
    destruct (analyze_hype cfg world (cache_key hype_query) log)
      as [[e | [[score title] snippets]] log'].
    + do 3 eexists. split; [reflexivity|]. cbn [fst snd].
      split; [reflexivity|]. split; [|split; [reflexivity|]].
      * intros k Hk. apply lookup_delete_ne. congruence.
      * apply lookup_delete_eq.
    + do 3 eexists. split; [reflexivity|]. cbn [fst snd].
      split; [reflexivity|]. split; [|split; [reflexivity|]].
      * intros k Hk. rewrite lookup_insert_ne by congruence.
        apply lookup_delete_ne. congruence.
      * apply lookup_insert_eq.
Qed.

Lemma cache_freshness_witness :
  get_hype news_only world_python {| query := "Python" |} 500 cache_python [] =
    (inr stored_result, cache_python, []) /\
  exists outcome cache' log',
    get_hype news_only world_python {| query := "Python" |} 2000 cache_python [] =
      (outcome, cache', log') /\
    log' = [CallWikipedia "python"; CallNewsAPI (news_url "python" "k3y")] /\
    (exists result,
       outcome = inr result /\
       cache' !! "python" = Some {| timestamp := 2000; data := result |}).
Proof.
  split.
  - destruct (cache_freshness news_only world_python {| query := "Python" |} 500
                cache_python [] {| timestamp := 100; data := stored_result |} eq_refl)
      as (_ & Hhit & _).
    apply Hhit. reflexivity.
  - destruct (cache_freshness news_only world_python {| query := "Python" |} 2000
                cache_python [] {| timestamp := 100; data := stored_result |} eq_refl)
      as (_ & _ & Hmiss).
    destruct Hmiss as (outcome & cache' & log' & Hget & Hlog & _ & Hstore).
    { intros H. vm_compute in H. discriminate. }
    exists outcome, cache', log'. split; [exact Hget|]. split; [exact Hlog|].
    destruct (analyze_hype news_only world_python (cache_key {| query := "Python" |}) [])
      as [[e | [[score title] snippets]] log2] eqn:E; [vm_compute in E; discriminate|].
    cbn [fst] in Hstore. destruct Hstore as [Hout Hlook].
    eexists. split; [exact Hout | exact Hlook].
Defined.

(** C5 (the code departs from it).  The cache holds an entry for "python"
    made at time 100; the request comes at time 1000, when the window of
    900 seconds has just elapsed, and the network is down.  The entry is
    deleted, the aggregation runs and raises (the Wikipedia error of C1),
    and no new result is stored under the key: the request ends in the
    exception and the cache has lost its entry. *)
Theorem stale_entry_lost_when_aggregation_raises :
  cache_python !! cache_key {| query := "Python" |} =
    Some {| timestamp := 100; data := stored_result |} /\
  ~ (1000 - 100 < CACHE_DURATION_SECONDS)%Q /\
  get_hype news_only world_offline {| query := "Python" |} 1000 cache_python [] =
    (inl (RequestException "Max retries exceeded with url: /w/api.php"),
     delete "python" cache_python, [CallWikipedia "python"]) /\
  delete "python" cache_python !! "python" = None.
Proof.
  split; [reflexivity|]. split; [intros H; vm_compute in H; discriminate|].
  split; [reflexivity | apply lookup_delete_eq].
Qed.

End MainFacts.

(** ** The trend analyzer *)

Module TrendsFacts.
Import Py TrendsAnalyzer TrendScenarios.

Lemma first_data_column (before after : InterestFrame) (keyword : string) (series : list Z) :
  Forall (fun col => fst col = "isPartial") before ->
  keyword <> "isPartial" ->
  exists others,
    List.filter (fun col => negb (String.eqb col "isPartial"))
                (columns (before ++ (keyword, series) :: after)) = keyword :: others.
Proof.
  intros Hb Hk. induction Hb as [|[n cells] before Hn _ IH]; cbn.
  - apply String.eqb_neq in Hk. rewrite Hk. cbn. eexists. reflexivity.
  - cbn in Hn. subst n. cbn. exact IH.
Qed.

Lemma column_of_keyword (before after : InterestFrame) (keyword : string) (series : list Z) :
  Forall (fun col => fst col = "isPartial") before ->
  keyword <> "isPartial" ->
  column (before ++ (keyword, series) :: after) keyword = inr series.
Proof.
  intros Hb Hk. induction Hb as [|[n cells] before Hn _ IH]; cbn.
  - rewrite String.eqb_refl. reflexivity.
  - cbn in Hn. subst n.
    replace (String.eqb "isPartial" keyword) with false; [exact IH|].
    symmetry. apply String.eqb_neq. congruence.
Qed.

(** What the function returns on a frame that has data. *)
Lemma calculate_with_data (trends_data : TrendsData) (series : list Z) (v : Z) :
  keyword_series (interest trends_data) series ->
  last series = Some v ->
  calculate_hype_from_trends (Some trends_data) =
    inr (inject_Z v,
         (if (v =? 0) && (0 <? sum series) then "Interest Fading?" else title_bucket v),
         match related_snippets (related_queries trends_data) with
         | [] => ["No specific related queries found."]
         | s :: rest => s :: rest
         end).
Proof.
  intros [Hne (before & keyword & after & Hdf & Hb & Hk)] Hlast.
  unfold calculate_hype_from_trends. rewrite Hne. cbn [negb].
  rewrite Hdf.
  destruct (first_data_column before after keyword series Hb Hk) as [others ->].
  cbn [bind]. rewrite (column_of_keyword before after keyword series Hb Hk).
  cbn [bind]. unfold iloc_last. rewrite Hlast. cbn [bind].
  destruct (v =? 0); cbn [bind andb]; [destruct (0 <? sum series)|];
    destruct (related_snippets (related_queries trends_data)); reflexivity.
Qed.

Lemma leading_keyword_column (keyword : string) (v : Z) (series : list Z)
    (after : InterestFrame) :
  keyword <> "isPartial" ->
  keyword_series ((keyword, v :: series) :: after) (v :: series).
Proof.
  intros Hk. split; [reflexivity|].
  exists [], keyword, after. repeat split; [constructor | exact Hk].
Qed.

(** C8.  On trend data that has a keyword column with latest value [v]:
    the title is "Interest Fading?" when [v] is 0 and the values of the
    window add up to more than 0, and otherwise follows the thresholds
    85, 65, 40 and 15. *)
Theorem title_by_latest_interest (trends_data : TrendsData) (series : list Z) (v : Z) :
  keyword_series (interest trends_data) series ->
  last series = Some v ->
  exists title snippets,
    calculate_hype_from_trends (Some trends_data) = inr (inject_Z v, title, snippets) /\
    (v = 0 /\ 0 < sum series -> title = "Interest Fading?") /\
    (~ (v = 0 /\ 0 < sum series) ->
     (85 < v -> title = "Peak Interest!") /\
     (65 < v <= 85 -> title = "High Interest") /\
     (40 < v <= 65 -> title = "Moderate Interest") /\
     (15 < v <= 40 -> title = "Low Interest") /\
     (v <= 15 -> title = "Minimal Interest")).
Proof.
  intros Hdata Hlast. rewrite (calculate_with_data trends_data series v Hdata Hlast).
  do 2 eexists. split; [reflexivity|].
  destruct (Z.eqb_spec v 0) as [Hv | Hv], (Z.ltb_spec 0 (sum series)) as [Hs | Hs];
    cbn [andb]; (split; [intros [? ?]; first [reflexivity | lia] | intros Hno]);
    try (exfalso; apply Hno; split; assumption);
    unfold title_bucket;
    destruct (Z.ltb_spec 85 v), (Z.ltb_spec 65 v), (Z.ltb_spec 40 v), (Z.ltb_spec 15 v);
    repeat split; intros; first [reflexivity | lia].
Qed.

Lemma title_by_latest_interest_witness :
  sum [100; 240; 0] = 340 /\
  exists snippets,
    calculate_hype_from_trends (Some fading) = inr (0%Q, "Interest Fading?", snippets).
Proof.
  split; [reflexivity|].
  destruct (title_by_latest_interest fading [100; 240; 0] 0)
    as (title & snippets & Hcalc & Hfading & _).
  - apply leading_keyword_column. discriminate.
  - reflexivity.
  - exists snippets. rewrite Hcalc, Hfading; [reflexivity|]. split; reflexivity.
Defined.




End TrendsFacts.

(** ** Further properties of the aggregator *)

Module MainExtra.
Import Py PyFacts Main MainFacts Scenarios.

Ltac run :=
  unfold wikipedia_block, reddit_block, news_block, try_except, bind, call,
    lift, add_score, append_snippet, set_title, ret, raise_for_status,
    get_totalResults, as_number; cbn [fst snd score title snippets calls].

Ltac outcomes :=
  run; repeat case_match; simplify_eq; cbn [fst snd score title snippets calls].

Section Invariants.

Variable cfg : Config.
Variable world : Services.
Variable search_term : string.

(** A property of frames that every block keeps whenever it returns holds
    of what [analyze_hype] returns. *)
Lemma analyze_hype_invariant (I : Frame -> Prop) (log log' : list Call)
    (s : Q) (t : string) (sn : list string) :
  (forall fr, I fr ->
     match wikipedia_block world search_term fr with
     | (inr _, fr') => I fr' | (inl _, _) => True end) ->
  (forall fr, I fr ->
     match reddit_block cfg world search_term fr with
     | (inr _, fr') => I fr' | (inl _, _) => True end) ->
  (forall fr, I fr ->
     match news_block cfg world search_term fr with
     | (inr _, fr') => I fr' | (inl _, _) => True end) ->
  I (initial_frame log) ->
  analyze_hype cfg world search_term log = (inr (s, t, sn), log') ->
  I {| score := s; title := t; snippets := sn; calls := log' |}.
Proof.
  intros Hw Hr Hn H0. unfold analyze_hype, analyze_hype_body, bind.
  specialize (Hw _ H0).
  destruct (wikipedia_block world search_term (initial_frame log)) as [[e | []] fr1];
    [discriminate|].
  specialize (Hr _ Hw).
  destruct (reddit_block cfg world search_term fr1) as [[e | []] fr2]; [discriminate|].
  specialize (Hn _ Hr).
  destruct (news_block cfg world search_term fr2) as [[e | []] fr3]; [discriminate|].
  intros [= <- <- <- <-]. destruct fr3. exact Hn.
Qed.

End Invariants.

(** X1.  The title returned is one of four: the initial "No Data" or the name
    of a source that answered. *)
Theorem title_is_one_of_four (cfg : Config) (world : Services) (search_term : string)
    (log log' : list Call) (s : Q) (t : string) (sn : list string) :
  analyze_hype cfg world search_term log = (inr (s, t, sn), log') ->
  t = "No Data" \/ t = "Wikipedia Data" \/ t = "Reddit Data" \/ t = "News Data".
Proof.
  intros H.
  apply (analyze_hype_invariant cfg world search_term
           (fun fr => title fr = "No Data" \/ title fr = "Wikipedia Data" \/
                      title fr = "Reddit Data" \/ title fr = "News Data")
           log log' s t sn); try exact H.
  - intros fr HI. outcomes; tauto.
  - intros fr HI. outcomes; tauto.
  - intros fr HI. outcomes; tauto.
  - left. reflexivity.
Qed.

Lemma title_is_one_of_four_witness :
  exists s t sn log',
    analyze_hype all_credentials (world_with 4500 ["p1"] 0) "python" [] =
      (inr (s, t, sn), log') /\
    (t = "No Data" \/ t = "Wikipedia Data" \/ t = "Reddit Data" \/ t = "News Data").
Proof.
  destruct (analyze_hype all_credentials (world_with 4500 ["p1"] 0) "python" [])
    as [[e | [[s t] sn]] log'] eqn:E; [vm_compute in E; discriminate|].
  exists s, t, sn, log'. split; [reflexivity|].
  exact (title_is_one_of_four _ _ _ _ _ _ _ _ E).
Defined.

Section Raising.

Variable cfg : Config.
Variable world : Services.
Variable search_term : string.

(** What the Wikipedia look-up and the reading of the links give. *)
Lemma wikipedia_block_raise_inv (fr : Frame) :
  match wikipedia_block world search_term fr with
  | (inl e, _) =>
      (wikipedia_page world search_term = inl e \/
       exists page, wikipedia_page world search_term = inr page /\ links page = inl e) /\
      (forall msg, e <> PageError msg) /\
      (forall options, e <> DisambiguationError options)
  | (inr _, _) => True
  end.
Proof.
  run. destruct (wikipedia_page world search_term) as [e | page] eqn:Hp; cbn.
  - destruct e; cbn; try exact I; repeat split; try discriminate; left; reflexivity.
  - destruct (links page) as [e | l] eqn:Hl; cbn; [|exact I].
    destruct e; cbn; try exact I; repeat split; try discriminate;
      right; exists page; (split; [reflexivity | assumption]).
Qed.

Lemma news_block_raise_inv (fr : Frame) :
  match news_block cfg world search_term fr with
  | (inl e, _) => truthy (NEWSAPI_KEY cfg) = true /\ is_RequestException e = false
  | (inr _, _) => True
  end.
Proof.
  unfold news_block. destruct (NEWSAPI_KEY cfg) as [key|]; [|exact I].
  destruct (truthy (Some key)) eqn:Hk; [|exact I].
  unfold try_except.
  match goal with |- context [match ?b fr with _ => _ end] => destruct (b fr) as [[e | []] fr'] end;
    [|exact I].
  destruct (is_RequestException e) eqn:He; [exact I|].
  cbn. split; first [reflexivity | assumption].
Qed.

End Raising.

(** X2.  [analyze_hype] raises in two ways only.  Either the Wikipedia look-up
    (or the reading of the links of the page) failed with an error that is
    neither [PageError] nor [DisambiguationError]: then that error is
    raised and the look-up is the only call made.  Or the NewsAPI block is
    switched on and the error is not a [RequestException]. *)
Theorem analyze_hype_raises_only (cfg : Config) (world : Services) (search_term : string)
    (log log' : list Call) (e : Exception) :
  analyze_hype cfg world search_term log = (inl e, log') ->
  ((wikipedia_page world search_term = inl e \/
    exists page, wikipedia_page world search_term = inr page /\ links page = inl e) /\
   (forall msg, e <> PageError msg) /\
   (forall options, e <> DisambiguationError options) /\
   log' = log ++ [CallWikipedia search_term]) \/
  (truthy (NEWSAPI_KEY cfg) = true /\ is_RequestException e = false).
Proof.
  unfold analyze_hype, analyze_hype_body, bind.
  pose proof (wikipedia_block_raise_inv world search_term (initial_frame log)) as Hw.
  pose proof (wikipedia_block_calls world search_term (initial_frame log)) as Hc.
  destruct (wikipedia_block world search_term (initial_frame log)) as [[e1 | []] fr1].
  - intros [= <- <-]. left. cbn [snd calls initial_frame] in Hc. tauto.
  - pose proof (reddit_block_returns cfg world search_term fr1) as Hr.
    destruct (reddit_block cfg world search_term fr1) as [[e2 | []] fr2];
      [discriminate Hr|].
    pose proof (news_block_raise_inv cfg world search_term fr2) as Hn.
    destruct (news_block cfg world search_term fr2) as [[e3 | []] fr3];
      [|discriminate].
    intros [= <- <-]. right. exact Hn.
Qed.

Lemma analyze_hype_raises_only_witness :
  exists e,
    analyze_hype all_credentials world_offline "python" [] = (inl e, [CallWikipedia "python"]) /\
    wikipedia_page world_offline "python" = inl e.
Proof.
  destruct (analyze_hype all_credentials world_offline "python" []) as [[e | r] log'] eqn:E;
    [|vm_compute in E; discriminate].
  destruct (analyze_hype_raises_only all_credentials world_offline "python" [] log' e E)
    as [([Hp | (page & Hp & _)] & _ & _ & Hlog) | [_ He]].
  - exists e. rewrite Hlog. split; [reflexivity | exact Hp].
  - vm_compute in Hp. discriminate.
  - vm_compute in E. injection E as <- _. discriminate.
Defined.

(** X3.  When [analyze_hype] returns, it has made one call to Wikipedia, then
    one to Reddit if there is a client, then one to NewsAPI if there is a
    key, and it returns exactly one snippet per call made. *)
Theorem one_snippet_per_call (cfg : Config) (world : Services) (search_term : string)
    (log log' : list Call) (s : Q) (t : string) (sn : list string) :
  analyze_hype cfg world search_term log = (inr (s, t, sn), log') ->
  log' = log ++ CallWikipedia search_term ::
           (match reddit cfg with
            | Some _ => [CallReddit search_term 10]
            | None => []
            end) ++
           (match NEWSAPI_KEY cfg with
            | Some key =>
                if truthy (Some key) then [CallNewsAPI (news_url search_term key)] else []
            | None => []
            end) /\
  (length sn + length log)%nat = length log'.
Proof.
  intros H. split.
  - revert H. unfold analyze_hype, analyze_hype_body, bind.
    pose proof (wikipedia_block_calls world search_term (initial_frame log)) as Hw.
    destruct (wikipedia_block world search_term (initial_frame log)) as [[e | []] fr1];
      [discriminate|].
    pose proof (reddit_block_calls cfg world search_term fr1) as Hr.
    destruct (reddit_block cfg world search_term fr1) as [[e | []] fr2]; [discriminate|].
    pose proof (news_block_calls cfg world search_term fr2) as Hn.
    destruct (news_block cfg world search_term fr2) as [[e | []] fr3]; [discriminate|].
    intros [= _ _ _ <-]. cbn [snd calls initial_frame] in Hw, Hr, Hn.
    rewrite Hn, Hr, Hw, <- !app_assoc. reflexivity.
  - apply (analyze_hype_invariant cfg world search_term
             (fun fr => (length (snippets fr) + length log)%nat = length (calls fr))
             log log' s t sn); try exact H.
    + intros fr HI. outcomes; rewrite ?length_app; cbn [length]; lia.
    + intros fr HI. outcomes; rewrite ?length_app; cbn [length]; lia.
    + intros fr HI. outcomes; rewrite ?length_app; cbn [length]; lia.
    + reflexivity.
Qed.

Lemma one_snippet_per_call_witness :
  exists s t sn,
    analyze_hype news_only world_nothing "python" [] =
      (inr (s, t, sn), [CallWikipedia "python"; CallNewsAPI (news_url "python" "k3y")]) /\
    length sn = 2%nat.
Proof.
  destruct (analyze_hype news_only world_nothing "python" [])
    as [[e | [[s t] sn]] log'] eqn:E; [vm_compute in E; discriminate|].
  destruct (one_snippet_per_call news_only world_nothing "python" [] log' s t sn E)
    as [Hlog Hlen].
  exists s, t, sn. rewrite Hlog in Hlen |- *. split; [reflexivity|].
  cbn in Hlen. lia.
Defined.

Lemma reddit_contribution_zero (n : nat) :
  (0 <? n)%nat = false -> (reddit_contribution n == 0)%Q.
Proof.
  intros H. apply Nat.ltb_ge in H. replace n with 0%nat by lia. reflexivity.
Qed.

Lemma news_contribution_zero (a : Z) :
  0 <= a -> (0 <? a) = false -> (news_contribution a == 0)%Q.
Proof.
  intros Ha H. apply Z.ltb_ge in H. replace a with 0 by lia. reflexivity.
Qed.

(** X4.  With article counts that are not negative, a result titled "No Data"
    has score 0: no source added to the score without leaving its name in
    the title. *)
Theorem no_data_means_zero (cfg : Config) (world : Services) (search_term : string)
    (log log' : list Call) (s : Q) (t : string) (sn : list string) :
  article_counts_nonneg world ->
  analyze_hype cfg world search_term log = (inr (s, t, sn), log') ->
  t = "No Data" -> (s == 0)%Q.
Proof.
  intros Hnn H.
  assert ((0 <= s)%Q /\ (t = "No Data" -> (s == 0)%Q)) as [_ Hs]; [|exact Hs].
  apply (analyze_hype_invariant cfg world search_term
           (fun fr => (0 <= score fr)%Q /\ (title fr = "No Data" -> (score fr == 0)%Q))
           log log' s t sn); try exact H.
  - intros fr [H0 H1]. outcomes; try exact I; (split; [|intros Ht; try discriminate Ht]);
      try pose proof (wikipedia_contribution_bounds (length l));
      try specialize (H1 Ht); lra.
  - intros fr [H0 H1]. outcomes; try exact I; (split; [|intros Ht; try discriminate Ht]);
      try pose proof (reddit_contribution_bounds (length l));
      try match goal with
          | E : (0 <? ?n)%nat = false |- _ => pose proof (reddit_contribution_zero n E)
          end;
      try specialize (H1 Ht); lra.
  - intros fr [H0 H1]. outcomes; try exact I; (split; [|intros Ht; try discriminate Ht]);
      try match goal with
          | |- context [news_contribution ?a] =>
              assert (0 <= a) by eauto;
              pose proof (news_contribution_nonneg a ltac:(assumption))
          end;
      try match goal with
          | E : (0 <? ?a) = false |- _ =>
              pose proof (news_contribution_zero a ltac:(assumption) E)
          end;
      try specialize (H1 Ht); lra.
  - split; [cbn; lra | intros _; reflexivity].
Qed.

Lemma no_data_means_zero_witness :
  exists s sn log',
    analyze_hype all_credentials world_nothing "python" [] = (inr (s, "No Data", sn), log') /\
    (s == 0)%Q.
Proof.
  destruct (analyze_hype all_credentials world_nothing "python" [])
    as [[e | [[s t] sn]] log'] eqn:E; [vm_compute in E; discriminate|].
  assert (t = "No Data") as Ht by (vm_compute in E; congruence).
  subst t. exists s, sn, log'. split; [reflexivity|].
  apply (no_data_means_zero all_credentials world_nothing "python" [] log' s "No Data" sn).
  - intros url response items article_count Hg Hj. cbn in Hg. injection Hg as <-.
    cbn in Hj. discriminate.
  - exact E.
  - reflexivity.
Defined.

(** X5.  When the three sources answer, the score is the sum of the three
    clamped contributions, the title names the last source in the order
    Wikipedia, Reddit, NewsAPI that found something, and the snippets are
    the three reports in that order. *)
Theorem all_sources_answer (cfg : Config) (world : Services) (search_term : string)
    (log : list Call) (page : WikipediaPage) (page_links : list string)
    (client : Reddit) (posts : list string) (key : string) (response : Response)
    (items : list (string * value)) (article_count : Z) :
  wikipedia_page world search_term = inr page ->
  links page = inr page_links ->
  reddit cfg = Some client ->
  reddit_search world client search_term 10 = inr posts ->
  NEWSAPI_KEY cfg = Some key ->
  truthy (Some key) = true ->
  requests_get world (news_url search_term key) = inr response ->
  http_error response = None ->
  json response = inr (PyDict items) ->
  dict_get items "totalResults" (PyInt 0) = PyInt article_count ->
  analyze_hype cfg world search_term log =
    (inr ((0 + wikipedia_contribution (length page_links)
             + reddit_contribution (length posts)
             + news_contribution article_count)%Q,
          (if 0 <? article_count then "News Data"
           else if (0 <? length posts)%nat then "Reddit Data"
           else "Wikipedia Data"),
          ["Wikipedia links: " +:+ str_int (Z.of_nat (length page_links));
           "Reddit posts: " +:+ str_int (Z.of_nat (length posts));
           "News articles: " +:+ str_int article_count]),
     log ++ [CallWikipedia search_term; CallReddit search_term 10;
             CallNewsAPI (news_url search_term key)]).
Proof.
  intros Hp Hl Hc Hs Hk Ht Hg He Hj Hd.
  unfold analyze_hype, analyze_hype_body, bind.
  rewrite (wikipedia_block_ok world search_term _ page page_links Hp Hl).
  rewrite (reddit_block_ok cfg world search_term _ client posts Hc Hs).
  rewrite (news_block_ok cfg world search_term _ key response items article_count
             Hk Ht Hg He Hj Hd).
  cbn [score title snippets calls initial_frame app].
  rewrite <- !app_assoc. reflexivity.
Qed.

Lemma all_sources_answer_witness :
  exists s,
    analyze_hype all_credentials (world_with 1200 ["p1"; "p2"; "p3"] 0) "python" [] =
      (inr (s, "Reddit Data",
            ["Wikipedia links: 1200"; "Reddit posts: 3"; "News articles: 0"]),
       [CallWikipedia "python"; CallReddit "python" 10;
        CallNewsAPI (news_url "python" "k3y")]) /\
    (s == 18)%Q.
Proof.
  eexists. split.
  - rewrite (all_sources_answer all_credentials (world_with 1200 ["p1"; "p2"; "p3"] 0)
               "python" [] (page_with_links 1200) (repeat "link" 1200)
               {| client_id := "id"; client_secret := "secret";
                  user_agent := REDDIT_USER_AGENT |}
               ["p1"; "p2"; "p3"] "k3y" (news_response 0)
               [("status", PyStr "ok"); ("totalResults", PyInt 0)] 0);
      reflexivity.
  - vm_compute. reflexivity.
Defined.

Lemma min_mono_l (a a' c : Q) : (a <= a')%Q -> (min a c <= min a' c)%Q.
Proof.
  intros H. destruct (min_spec a c) as [[H1 ->] | [H1 ->]],
              (min_spec a' c) as [[H2 ->] | [H2 ->]]; lra.
Qed.

Lemma min_reaches_clamp (a c : Q) : (min a c == c)%Q <-> (c <= a)%Q.
Proof.
  destruct (min_spec a c) as [[H1 ->] | [H1 ->]]; split; intros; lra.
Qed.

(** X6.  The three contributions grow with the raw value, and reach their clamp
    exactly from 2000 links, 15 posts and 500 articles on. *)
Theorem contributions_monotone_saturating (n m : nat) (a b : Z) :
  (n <= m)%nat -> a <= b ->
  (wikipedia_contribution n <= wikipedia_contribution m)%Q /\
  (reddit_contribution n <= reddit_contribution m)%Q /\
  (news_contribution a <= news_contribution b)%Q /\
  ((wikipedia_contribution n == 20)%Q <-> (2000 <= n)%nat) /\
  ((reddit_contribution n == 30)%Q <-> (15 <= n)%nat) /\
  ((news_contribution a == 50)%Q <-> 500 <= a).
Proof.
  intros Hnm Hab.
  assert (inject_Z (Z.of_nat n) <= inject_Z (Z.of_nat m))%Q as H1
    by (rewrite <- Zle_Qle; lia).
  assert (inject_Z (Z.of_nat n * 2) <= inject_Z (Z.of_nat m * 2))%Q as H2
    by (rewrite <- Zle_Qle; lia).
  assert (inject_Z a <= inject_Z b)%Q as H3 by (rewrite <- Zle_Qle; lia).
  unfold wikipedia_contribution, reddit_contribution, news_contribution.
  repeat split.
  - apply min_mono_l. apply Qmult_le_compat_r; [exact H1 | discriminate].
  - apply min_mono_l. exact H2.
  - apply min_mono_l. apply Qmult_le_compat_r; [exact H3 | discriminate].
  - intros H. apply min_reaches_clamp in H.
    unfold Qle in H. cbn in H. lia.
  - intros H. apply min_reaches_clamp. unfold Qle. cbn. lia.
  - intros H. apply min_reaches_clamp in H. rewrite <- (Zle_Qle 30) in H. lia.
  - intros H. apply min_reaches_clamp. rewrite <- (Zle_Qle 30). lia.
  - intros H. apply min_reaches_clamp in H.
    unfold Qle in H. cbn in H. lia.
  - intros H. apply min_reaches_clamp. unfold Qle. cbn. lia.
Qed.

Lemma contributions_monotone_saturating_witness :
  (wikipedia_contribution 1999 <= wikipedia_contribution 2000)%Q /\
  (wikipedia_contribution 2000 == 20)%Q /\
  ~ (wikipedia_contribution 1999 == 20)%Q /\
  (news_contribution 500 == 50)%Q.
Proof.
  destruct (contributions_monotone_saturating 1999 2000 499 500)
    as (Hw & _ & _ & _ & _ & _); [lia | lia |].
  destruct (contributions_monotone_saturating 2000 2000 500 500)
    as (_ & _ & _ & Hw2 & _ & Hn2); [lia | lia |].
  destruct (contributions_monotone_saturating 1999 1999 0 0)
    as (_ & _ & _ & Hw3 & _ & _); [lia | lia |].
  split; [exact Hw|]. split; [apply Hw2; lia|].
  split; [intros H; apply Hw3 in H; lia | apply Hn2; lia].
Defined.

Section RedditLimit.

Variable cfg : Config.
Variable world : Services.
Variable search_term : string.

(** The search is asked for 10 results at most. *)
Hypothesis limit_honoured :
  forall client posts,
    reddit_search world client search_term 10 = inr posts -> (length posts <= 10)%nat.

Lemma reddit_block_score_limited (fr : Frame) :
  (score (snd (reddit_block cfg world search_term fr)) <= score fr + 20)%Q.
Proof.
  outcomes; try lra;
    match goal with
    | E : reddit_search _ _ _ _ = inr ?l |- _ =>
        pose proof (limit_honoured _ _ E) as Hl;
        pose proof (min_le_l (inject_Z (Z.of_nat (length l) * 2)) 30) as Hm;
        fold (reddit_contribution (length l)) in Hm;
        assert (inject_Z (Z.of_nat (length l) * 2) <= inject_Z 20)%Q as Hz
          by (rewrite <- Zle_Qle; lia);
        change (inject_Z 20) with 20%Q in Hz; lra
    end.
Qed.

End RedditLimit.

(** X7.  When the Reddit search returns no more than the 10 results it is asked
    for, the Reddit contribution stays at 20 at most, below its clamp of
    30, and the score returned is at most 90. *)
Theorem score_at_most_90 (cfg : Config) (world : Services) (search_term : string)
    (log log' : list Call) (s : Q) (t : string) (sn : list string) :
  (forall client posts,
     reddit_search world client search_term 10 = inr posts -> (length posts <= 10)%nat) ->
  analyze_hype cfg world search_term log = (inr (s, t, sn), log') ->
  (s <= 90)%Q.
Proof.
  intros Hlimit. unfold analyze_hype, analyze_hype_body, bind.
  pose proof (wikipedia_block_score world search_term (initial_frame log)) as Hw.
  destruct (wikipedia_block world search_term (initial_frame log)) as [[e | []] fr1];
    [discriminate|].
  pose proof (reddit_block_score_limited cfg world search_term Hlimit fr1) as Hr.
  destruct (reddit_block cfg world search_term fr1) as [[e | []] fr2]; [discriminate|].
  pose proof (news_block_score_le cfg world search_term fr2) as Hn.
  destruct (news_block cfg world search_term fr2) as [[e | []] fr3]; [discriminate|].
  intros [= <- _ _ _]. cbn [snd score initial_frame] in *. lra.
Qed.

Lemma score_at_most_90_witness :
  exists s t sn log',
    analyze_hype all_credentials
      (world_with 4500 ["1"; "2"; "3"; "4"; "5"; "6"; "7"; "8"; "9"; "10"] 9000)
      "python" [] = (inr (s, t, sn), log') /\
    (s == 90)%Q /\ (s <= 90)%Q.
Proof.
  destruct (analyze_hype all_credentials
              (world_with 4500 ["1"; "2"; "3"; "4"; "5"; "6"; "7"; "8"; "9"; "10"] 9000)
              "python" []) as [[e | [[s t] sn]] log'] eqn:E;
    [vm_compute in E; discriminate|].
  exists s, t, sn, log'. split; [reflexivity|]. split.
  - vm_compute in E. injection E as <- _ _ _. reflexivity.
  - apply (score_at_most_90 all_credentials
             (world_with 4500 ["1"; "2"; "3"; "4"; "5"; "6"; "7"; "8"; "9"; "10"] 9000)
             "python" [] log' s t sn); [|exact E].
    intros client posts Hs. cbn in Hs. injection Hs as <-. cbn. lia.
Defined.

Lemma dict_get_absent (items : list (string * value)) (key : string) (default : value) :
  (forall v, ~ In (key, v) items) -> dict_get items key default = default.
Proof.
  induction items as [|[k v] items IH]; intros Habs; [reflexivity|].
  cbn [dict_get]. destruct (String.eqb_spec k key) as [-> | Hk].
  - destruct (Habs v). left. reflexivity.
  - apply IH. intros v' Hin. apply (Habs v'). right. exact Hin.
Qed.

(** X8.  A NewsAPI answer whose JSON object has no "totalResults" counts as 0
    articles: the score and the title stay as they were and the snippet
    reports 0. *)
Theorem missing_total_counts_zero (cfg : Config) (world : Services) (search_term : string)
    (fr : Frame) (key : string) (response : Response) (items : list (string * value)) :
  NEWSAPI_KEY cfg = Some key ->
  truthy (Some key) = true ->
  requests_get world (news_url search_term key) = inr response ->
  http_error response = None ->
  json response = inr (PyDict items) ->
  (forall v, ~ In ("totalResults", v) items) ->
  exists fr',
    news_block cfg world search_term fr = (inr tt, fr') /\
    (score fr' == score fr)%Q /\
    title fr' = title fr /\
    snippets fr' = snippets fr ++ ["News articles: 0"].
Proof.
  intros Hk Ht Hg He Hj Habs.
  rewrite (news_block_ok cfg world search_term fr key response items 0 Hk Ht Hg He Hj
             (dict_get_absent items "totalResults" (PyInt 0) Habs)).
  eexists. split; [reflexivity|]. cbn [score title snippets].
  split; [|split; reflexivity].
  assert (news_contribution 0 == 0)%Q as -> by reflexivity. lra.
Qed.

Lemma missing_total_counts_zero_witness :
  exists fr',
    news_block news_only world_no_total "python" (initial_frame []) = (inr tt, fr') /\
    (score fr' == 0)%Q /\ title fr' = "No Data" /\ snippets fr' = ["News articles: 0"].
Proof.
  destruct (missing_total_counts_zero news_only world_no_total "python" (initial_frame [])
              "k3y" {| http_error := None; json := inr (PyDict [("status", PyStr "ok")]) |}
              [("status", PyStr "ok")])
    as (fr' & Hrun & Hs & Ht & Hsn); try reflexivity.
  - intros v [H | []]. discriminate.
  - exists fr'. repeat split; assumption.
Defined.

(** X9.  A NewsAPI answer that decodes to null, an integer, a string or an
    array makes the block raise an [AttributeError]; one that decodes to
    an object whose "totalResults" is null, a string, an array or an
    object makes it raise a [TypeError].  Either way the block has logged
    its call, has left score, title and snippets as they were, and the
    error, not being a [RequestException], leaves the block: [analyze_hype]
    raises instead of returning. *)
Theorem malformed_news_body_raises (cfg : Config) (world : Services) (search_term : string)
    (log : list Call) (key : string) (response : Response) (news_data : value) :
  NEWSAPI_KEY cfg = Some key ->
  truthy (Some key) = true ->
  requests_get world (news_url search_term key) = inr response ->
  http_error response = None ->
  json response = inr news_data ->
  (not_an_object news_data = true \/
   exists items,
     news_data = PyDict items /\
     not_divisible (dict_get items "totalResults" (PyInt 0)) = true) ->
  (forall fr, exists msg,
     news_block cfg world search_term fr =
       (inl (if not_an_object news_data then AttributeError msg else TypeError msg),
        {| score := score fr; title := title fr; snippets := snippets fr;
           calls := calls fr ++ [CallNewsAPI (news_url search_term key)] |})) /\
  exists e log', analyze_hype cfg world search_term log = (inl e, log').
Proof.
  intros Hk Ht Hg He Hj Hbad.
  assert (forall fr, exists msg,
     news_block cfg world search_term fr =
       (inl (if not_an_object news_data then AttributeError msg else TypeError msg),
        {| score := score fr; title := title fr; snippets := snippets fr;
           calls := calls fr ++ [CallNewsAPI (news_url search_term key)] |})) as Hblock.
  { intros fr. unfold news_block. rewrite Hk, Ht. run. rewrite Hg. cbn.
    rewrite He. cbn. rewrite Hj. cbn.
    destruct Hbad as [Hno | (items & -> & Hnd)].
    - destruct news_data as [| z | s | l | items]; try discriminate Hno; cbn;
        eexists; reflexivity.
    - cbn. destruct (dict_get items "totalResults" (PyInt 0)) as [| z | s | l | items'];
        try discriminate Hnd; cbn; eexists; reflexivity. }
  split; [exact Hblock|].
  unfold analyze_hype, analyze_hype_body, bind.
  destruct (wikipedia_block world search_term (initial_frame log)) as [[e | []] fr1];
    [do 2 eexists; reflexivity|].
  pose proof (reddit_block_returns cfg world search_term fr1) as Hr.
  destruct (reddit_block cfg world search_term fr1) as [[e | []] fr2];
    [discriminate Hr|].
  destruct (Hblock fr2) as (msg & ->). do 2 eexists. reflexivity.
Qed.

Lemma malformed_news_body_raises_witness :
  exists msg log',
    analyze_hype news_only world_null_total "python" [] = (inl (TypeError msg), log').
Proof.
  destruct (malformed_news_body_raises news_only world_null_total "python" []
              "k3y" {| http_error := None; json := inr (PyDict [("totalResults", PyNone)]) |}
              (PyDict [("totalResults", PyNone)]))
    as [_ (e & log' & Hrun)]; try reflexivity.
  - right. exists [("totalResults", PyNone)]. split; reflexivity.
  - destruct e as [| | | | msg | | |]; try (vm_compute in Hrun; discriminate).
    exists msg, log'. exact Hrun.
Defined.

(** *** The request handler *)

Section Handler.

Variable cfg : Config.
Variable world : Services.

(** What [get_hype] does, by the state of the cache and the outcome of the
    aggregation. *)
Lemma get_hype_cases (hype_query : HypeQuery) (now : Q)
    (cache : gmap string CacheEntry) (log : list Call) :
  let key := cache_key hype_query in
  (exists entry,
     cache !! key = Some entry /\
     (now - timestamp entry < CACHE_DURATION_SECONDS)%Q /\
     get_hype cfg world hype_query now cache log = (inr (data entry), cache, log)) \/
  (exists e log',
     analyze_hype cfg world key log = (inl e, log') /\
     get_hype cfg world hype_query now cache log = (inl e, delete key cache, log')) \/
  (exists s t sn log',
     analyze_hype cfg world key log = (inr (s, t, sn), log') /\
     let result :=
       {| result_query := query hype_query; result_score := s;
          result_title := t; result_snippets := sn |} in
     get_hype cfg world hype_query now cache log =
       (inr result, <[key := {| timestamp := now; data := result |}]> cache, log')).
Proof.
  intros key. unfold get_hype, fetch_and_store. fold key.
  destruct (cache !! key) as [entry|] eqn:Hentry.
  - destruct (Qltb (now - timestamp entry) CACHE_DURATION_SECONDS) eqn:Hfresh.
    + left. exists entry. apply Qltb_lt in Hfresh. repeat split; assumption.
    + right. destruct (analyze_hype cfg world key log) as [[e | [[s t] sn]] log'].
      * left. exists e, log'. split; reflexivity.
      * right. exists s, t, sn, log'. split; [reflexivity|].
        cbn zeta. rewrite insert_delete_eq. reflexivity.
  - right. destruct (analyze_hype cfg world key log) as [[e | [[s t] sn]] log'].
    + left. exists e, log'. split; [reflexivity|].
      rewrite delete_id by exact Hentry. reflexivity.
    + right. exists s, t, sn, log'. split; reflexivity.
Qed.

End Handler.

(** X10.  [get_hype] reads and writes the entry of the key of the request only:
    whatever happens, the entries of all other keys are as before. *)
Theorem get_hype_other_keys (cfg : Config) (world : Services) (hype_query : HypeQuery)
    (now : Q) (cache : gmap string CacheEntry) (log : list Call) (k : string) :
  k <> cache_key hype_query ->
  snd (fst (get_hype cfg world hype_query now cache log)) !! k = cache !! k.
Proof.
  intros Hk.
  destruct (get_hype_cases cfg world hype_query now cache log)
    as [(entry & _ & _ & ->) | [(e & log' & _ & ->) | (s & t & sn & log' & _ & ->)]];
    cbn [fst snd].
  - reflexivity.
  - apply lookup_delete_ne. congruence.
  - apply lookup_insert_ne. congruence.
Qed.

Lemma get_hype_other_keys_witness :
  snd (fst (get_hype news_only world_python {| query := "Rust" |} 2000 cache_python []))
    !! "python" = Some {| timestamp := 100; data := stored_result |}.
Proof.
  rewrite (get_hype_other_keys news_only world_python {| query := "Rust" |} 2000
             cache_python [] "python"); [reflexivity|].
  vm_compute. discriminate.
Defined.

(** X11.  A request that ends in an exception leaves no entry under its key: a
    failure is never cached, and an expired entry is gone all the same. *)
Theorem failed_request_not_cached (cfg : Config) (world : Services)
    (hype_query : HypeQuery) (now : Q) (cache cache' : gmap string CacheEntry)
    (log log' : list Call) (e : Exception) :
  get_hype cfg world hype_query now cache log = (inl e, cache', log') ->
  cache' !! cache_key hype_query = None /\
  analyze_hype cfg world (cache_key hype_query) log = (inl e, log').
Proof.
  intros H.
  destruct (get_hype_cases cfg world hype_query now cache log)
    as [(entry & _ & _ & Hg) | [(e1 & log1 & Ha & Hg) | (s & t & sn & log1 & _ & Hg)]];
    rewrite Hg in H; [discriminate | | discriminate].
  injection H as <- <- <-. split; [apply lookup_delete_eq | exact Ha].
Qed.

Lemma failed_request_not_cached_witness :
  exists e cache' log',
    get_hype all_credentials world_offline {| query := "Python" |} 2000 cache_python [] =
      (inl e, cache', log') /\
    cache' !! "python" = None.
Proof.
  destruct (get_hype all_credentials world_offline {| query := "Python" |} 2000
              cache_python []) as [[[e | r] cache'] log'] eqn:E;
    [|vm_compute in E; discriminate].
  exists e, cache', log'. split; [reflexivity|].
  exact (proj1 (failed_request_not_cached _ _ _ _ _ _ _ _ _ E)).
Defined.

(** X12.  After a request that returns, the cache holds the returned response
    under the key of the request, with a time stamp inside the freshness
    window; the response echoes either the query as sent or, on a hit, the
    query of the request that filled the cache. *)
Theorem response_is_cached_fresh (cfg : Config) (world : Services)
    (hype_query : HypeQuery) (now : Q) (cache cache' : gmap string CacheEntry)
    (log log' : list Call) (r : HypeResult) :
  get_hype cfg world hype_query now cache log = (inr r, cache', log') ->
  exists entry,
    cache' !! cache_key hype_query = Some entry /\
    data entry = r /\
    (now - timestamp entry < CACHE_DURATION_SECONDS)%Q /\
    (result_query r = query hype_query \/ cache !! cache_key hype_query = Some entry).
Proof.
  intros H.
  destruct (get_hype_cases cfg world hype_query now cache log)
    as [(entry & He & Hf & Hg) | [(e1 & log1 & Ha & Hg) | (s & t & sn & log1 & _ & Hg)]];
    rewrite Hg in H; [| discriminate |].
  - injection H as <- <- <-. exists entry. repeat split; try assumption. right. exact He.
  - cbn zeta in H. injection H as <- <- <-. eexists. split; [apply lookup_insert_eq|].
    cbn [data timestamp result_query]. repeat split; [|left; reflexivity].
    unfold CACHE_DURATION_SECONDS. unfold Qlt, Qminus, Qplus, Qopp. cbn. lia.
Qed.

Lemma response_is_cached_fresh_witness :
  exists r cache' log' entry,
    get_hype news_only world_python {| query := "Python" |} 2000 cache_python [] =
      (inr r, cache', log') /\
    cache' !! "python" = Some entry /\ data entry = r /\ result_query r = "Python".
Proof.
  destruct (get_hype news_only world_python {| query := "Python" |} 2000 cache_python [])
    as [[[e | r] cache'] log'] eqn:E; [vm_compute in E; discriminate|].
  destruct (response_is_cached_fresh _ _ _ _ _ _ _ _ _ E)
    as (entry & Hlook & Hdata & _ & _).
  exists r, cache', log', entry. split; [reflexivity|].
  split; [exact Hlook|]. split; [exact Hdata|].
  vm_compute in E. injection E as <- _ _. reflexivity.
Defined.

(** X13.  A miss followed, inside the window, by a request with the same key:
    the second request makes no call, leaves the cache as the first left
    it and returns the very response of the first, echoing the query text
    of the first request even when its own is spelled with other
    capitals. *)
Theorem repeat_request_served_from_cache (cfg : Config) (world : Services)
    (q1 q2 : HypeQuery) (t1 t2 : Q) (cache cache1 : gmap string CacheEntry)
    (log log1 : list Call) (r : HypeResult) :
  cache !! cache_key q1 = None ->
  get_hype cfg world q1 t1 cache log = (inr r, cache1, log1) ->
  cache_key q2 = cache_key q1 ->
  (t2 - t1 < CACHE_DURATION_SECONDS)%Q ->
  get_hype cfg world q2 t2 cache1 log1 = (inr r, cache1, log1) /\
  result_query r = query q1.
Proof.
  intros Hmiss H1 Hkey Hfresh.
  destruct (get_hype_cases cfg world q1 t1 cache log)
    as [(entry & He & _ & _) | [(e1 & log' & _ & Hg) | (s & t & sn & log' & _ & Hg)]];
    [congruence | rewrite Hg in H1; discriminate |].
  rewrite Hg in H1. cbn zeta in H1. injection H1 as <- <- <-.
  split; [|reflexivity].
  unfold get_hype. rewrite Hkey, lookup_insert_eq. cbn [timestamp data].
  apply Qltb_lt in Hfresh. rewrite Hfresh. reflexivity.
Qed.

Lemma repeat_request_served_from_cache_witness :
  exists r cache1 log1,
    get_hype news_only world_python {| query := "Python" |} 100 ∅ [] = (inr r, cache1, log1) /\
    get_hype news_only world_python {| query := "PYTHON" |} 999 cache1 log1 =
      (inr r, cache1, log1) /\
    result_query r = "Python".
Proof.
  destruct (get_hype news_only world_python {| query := "Python" |} 100 ∅ [])
    as [[[e | r] cache1] log1] eqn:E; [vm_compute in E; discriminate|].
  destruct (repeat_request_served_from_cache news_only world_python
              {| query := "Python" |} {| query := "PYTHON" |} 100 999 ∅ cache1 [] log1 r)
    as [Hhit Hq]; try reflexivity; [exact E|].
  exists r, cache1, log1. repeat split; assumption.
Defined.

End MainExtra.

(** ** Further properties of the trend analyzer *)

Module TrendsExtra.
Import Py TrendsAnalyzer TrendScenarios TrendsFacts.

Ltac io_run :=
  unfold get_google_trends_data, io_try, io_bind, io_call, io_lift, io_ret, sleep;
  cbn [fst snd].

Lemma contains_In (keyword : string) (names : list string) :
  existsb (String.eqb keyword) names = true <-> In keyword names.
Proof.
  rewrite existsb_exists. split.
  - intros (n & Hin & Heq). apply String.eqb_eq in Heq. subst n. exact Hin.
  - intros Hin. exists keyword. split; [exact Hin | apply String.eqb_refl].
Qed.

Lemma column_of_listed (df : InterestFrame) (keyword : string) :
  In keyword (columns df) -> exists series, column df keyword = inr series.
Proof.
  induction df as [|[n cells] df IH]; cbn; [intros []|].
  intros [-> | Hin].
  - rewrite String.eqb_refl. eexists. reflexivity.
  - destruct (String.eqb n keyword); [eexists; reflexivity | exact (IH Hin)].
Qed.

Lemma column_listed (df : InterestFrame) (keyword : string) (series : list Z) :
  column df keyword = inr series -> In keyword (columns df).
Proof.
  induction df as [|[n cells] df IH]; cbn; [discriminate|].
  destruct (String.eqb_spec n keyword) as [-> | Hn]; [left; reflexivity|].
  intros H. right. exact (IH H).
Qed.

(** The test of line 26 never raises: the column is read only when it is
    listed. *)
Lemma no_sufficient_data_spec (keyword : string) (df : InterestFrame) :
  (no_sufficient_data keyword df = inr true /\
   (~ In keyword (columns df) \/
    exists series, column df keyword = inr series /\ sum series = 0)) \/
  (no_sufficient_data keyword df = inr false /\
   exists series, column df keyword = inr series /\ sum series <> 0).
Proof.
  unfold no_sufficient_data.
  destruct (existsb (String.eqb keyword) (columns df)) eqn:E; cbn [negb].
  - apply contains_In in E. destruct (column_of_listed df keyword E) as [series Hs].
    rewrite Hs. cbn [bind]. destruct (Z.eqb_spec (sum series) 0) as [H0 | H0].
    + left. split; [reflexivity|]. right. exists series. split; [reflexivity | assumption].
    + right. split; [reflexivity|]. exists series. split; [reflexivity | assumption].
  - left. split; [reflexivity|]. left. intros Hin. apply contains_In in Hin. congruence.
Qed.

(** The runs of [get_google_trends_data], by the outcomes of the calls. *)
Lemma fetch_cases (pytrends : Pytrends) (keyword timeframe : string) (log : list Event) :
  let run := get_google_trends_data pytrends keyword timeframe log in
  let full := full_run keyword timeframe in
  match TrendReq pytrends with
  | inl e => run = (inl e, log ++ firstn 1 full)
  | inr _ =>
      match pytrends_build_payload pytrends [keyword] timeframe with
      | inl _ => run = (inr None, log ++ firstn 2 full)
      | inr _ =>
          match pytrends_interest_over_time pytrends [keyword] timeframe with
          | inl _ => run = (inr None, log ++ firstn 4 full)
          | inr interest_df =>
              match no_sufficient_data keyword interest_df with
              | inl _ => run = (inr None, log ++ firstn 4 full)
              | inr true =>
                  run = (inr (Some {| interest := []; related_queries := ∅ |}),
                         log ++ firstn 4 full)
              | inr false =>
                  match pytrends_related_queries pytrends [keyword] timeframe with
                  | inl _ => run = (inr None, log ++ full)
                  | inr related =>
                      run = (inr (Some {| interest := interest_df;
                                          related_queries :=
                                            default ∅ (related !! keyword) |}),
                             log ++ full)
                  end
              end
          end
      end
  end.
Proof.
  cbn zeta. io_run. unfold full_run.
  destruct (TrendReq pytrends) as [e | []]; cbn; [reflexivity|].
  destruct (pytrends_build_payload pytrends [keyword] timeframe) as [e | []]; cbn;
    [rewrite <- !app_assoc; reflexivity|].
  destruct (pytrends_interest_over_time pytrends [keyword] timeframe) as [e | df]; cbn;
    [rewrite <- !app_assoc; reflexivity|].
  destruct (no_sufficient_data keyword df) as [e | [|]]; cbn;
    try (rewrite <- !app_assoc; reflexivity).
  destruct (pytrends_related_queries pytrends [keyword] timeframe) as [e | related]; cbn;
    rewrite <- !app_assoc; reflexivity.
Qed.

(** X14.  The events of a run are an initial part of: build the client, build
    the payload, sleep half a second, ask for the interest, sleep half a
    second, ask for the related queries.  A run stops after 1, 2, 4 or 6
    of them, so each of the two requests comes right after its sleep and
    is made once at most. *)
Theorem fetch_events_in_order (pytrends : Pytrends) (keyword timeframe : string)
    (log : list Event) :
  exists n,
    (n = 1 \/ n = 2 \/ n = 4 \/ n = 6)%nat /\
    snd (get_google_trends_data pytrends keyword timeframe log) =
      log ++ firstn n (full_run keyword timeframe).
Proof.
  pose proof (fetch_cases pytrends keyword timeframe log) as H. cbn zeta in H.
  repeat case_match; rewrite H; cbn [snd];
    [exists 1%nat | exists 2%nat | exists 4%nat | exists 4%nat | exists 4%nat
    | exists 6%nat | exists 6%nat]; (split; [lia | reflexivity]).
Qed.

(** X15.  An error of the constructor is raised as it is; once the client is
    built nothing is raised: the function returns, and it returns [None]
    exactly when one of the three calls to the client failed (the related
    queries being asked only when the interest data suffices).  On [None],
    [calculate_hype_from_trends] gives the "No Data" result. *)
Theorem trends_errors_become_none (pytrends : Pytrends) (keyword timeframe : string)
    (log : list Event) :
  (forall e, TrendReq pytrends = inl e ->
     get_google_trends_data pytrends keyword timeframe log = (inl e, log ++ [NewTrendReq])) /\
  (TrendReq pytrends = inr tt ->
   exists result log',
     get_google_trends_data pytrends keyword timeframe log = (inr result, log') /\
     (result = None <->
      (exists e, pytrends_build_payload pytrends [keyword] timeframe = inl e) \/
      (exists e, pytrends_interest_over_time pytrends [keyword] timeframe = inl e) \/
      (exists interest_df e,
         pytrends_interest_over_time pytrends [keyword] timeframe = inr interest_df /\
         no_sufficient_data keyword interest_df = inr false /\
         pytrends_related_queries pytrends [keyword] timeframe = inl e)) /\
     (result = None -> calculate_hype_from_trends result = no_data_result)).
Proof.
  pose proof (fetch_cases pytrends keyword timeframe log) as H. cbn zeta in H.
  split.
  - intros e He. rewrite He in H. exact H.
  - intros Hc. rewrite Hc in H.
    destruct (pytrends_build_payload pytrends [keyword] timeframe) as [e1 | []].
    { do 2 eexists. split; [exact H|]. split; [|reflexivity].
      split; [intros _; left; eexists; reflexivity | reflexivity]. }
    destruct (pytrends_interest_over_time pytrends [keyword] timeframe) as [e2 | df].
    { do 2 eexists. split; [exact H|]. split; [|reflexivity].
      split; [intros _; right; left; eexists; reflexivity | reflexivity]. }
    destruct (no_sufficient_data_spec keyword df) as [[Hn _] | [Hn _]]; rewrite Hn in H.
    { do 2 eexists. split; [exact H|]. split; [|discriminate].
      split; [discriminate|].
      intros [[e He] | [[e He] | (df' & e & Hdf & Hn' & _)]]; try discriminate.
      injection Hdf as <-. congruence. }
    destruct (pytrends_related_queries pytrends [keyword] timeframe) as [e3 | related].
    { do 2 eexists. split; [exact H|]. split; [|reflexivity].
      split; [|reflexivity]. intros _. right. right. exists df, e3. repeat split. exact Hn. }
    do 2 eexists. split; [exact H|]. split; [|discriminate].
    split; [discriminate|].
    intros [[e He] | [[e He] | (df' & e & _ & _ & He)]]; discriminate.
Qed.

Lemma trends_errors_become_none_witness :
  get_google_trends_data pytrends_unreachable "python" default_timeframe [] =
    (inl (RequestException "Max retries exceeded with url: /"), [NewTrendReq]) /\
  exists log',
    get_google_trends_data pytrends_rate_limited "python" default_timeframe [] =
      (inr None, log').
Proof.
  split.
  - apply (trends_errors_become_none pytrends_unreachable "python" default_timeframe []).
    reflexivity.
  - destruct (trends_errors_become_none pytrends_rate_limited "python" default_timeframe [])
      as [_ H].
    destruct (H eq_refl) as (result & log' & Hrun & Hnone & _).
    exists log'. rewrite Hrun. f_equal. f_equal. apply Hnone.
    right. left. eexists. reflexivity.
Defined.

(** X16.  A keyword that the interest frame does not list, or whose values add
    up to 0, gives the empty structures: the related queries are not
    asked for, and [calculate_hype_from_trends] answers "No Data" rather
    than a score of 0 with a title. *)
Theorem insufficient_data_is_no_data (pytrends : Pytrends) (keyword timeframe : string)
    (log : list Event) (interest_df : InterestFrame) :
  TrendReq pytrends = inr tt ->
  pytrends_build_payload pytrends [keyword] timeframe = inr tt ->
  pytrends_interest_over_time pytrends [keyword] timeframe = inr interest_df ->
  (~ In keyword (columns interest_df) \/
   exists series, column interest_df keyword = inr series /\ sum series = 0) ->
  get_google_trends_data pytrends keyword timeframe log =
    (inr (Some {| interest := []; related_queries := ∅ |}),
     log ++ [NewTrendReq; BuildPayload [keyword] timeframe; Sleep (1 # 2); InterestOverTime]) /\
  calculate_hype_from_trends (Some {| interest := []; related_queries := ∅ |}) =
    no_data_result.
Proof.
  intros Hc Hb Hi Hins. split; [|reflexivity].
  pose proof (fetch_cases pytrends keyword timeframe log) as H. cbn zeta in H.
  rewrite Hc, Hb, Hi in H.
  destruct (no_sufficient_data_spec keyword interest_df)
    as [[Hn _] | [Hn (series & Hs & Hsum)]]; rewrite Hn in H; [exact H|].
  destruct Hins as [Hnot | (series' & Hs' & Hsum')].
  - destruct Hnot. exact (column_listed interest_df keyword series Hs).
  - congruence.
Qed.

Lemma insufficient_data_is_no_data_witness :
  exists log',
    get_google_trends_data
      (pytrends_with [("python", [0; 0; 0]); ("isPartial", [0; 0; 1])] ∅)
      "python" default_timeframe [] =
      (inr (Some {| interest := []; related_queries := ∅ |}), log') /\
    ~ In RelatedQueries log'.
Proof.
  destruct (insufficient_data_is_no_data
              (pytrends_with [("python", [0; 0; 0]); ("isPartial", [0; 0; 1])] ∅)
              "python" default_timeframe []
              [("python", [0; 0; 0]); ("isPartial", [0; 0; 1])])
    as [Hrun _]; try reflexivity.
  - right. exists [0; 0; 0]. split; reflexivity.
  - eexists. split; [exact Hrun|].
    cbn. intros [H | [H | [H | [H | []]]]]; discriminate.
Defined.

Lemma sum_nonneg (series : list Z) : Forall (fun v => 0 <= v) series -> 0 <= sum series.
Proof. unfold sum. induction 1; cbn [fold_right]; lia. Qed.

Lemma last_of_nonempty (series : list Z) : series <> [] -> exists v, last series = Some v.
Proof.
  intros H. destruct (last series) as [v|] eqn:E; [eexists; reflexivity|].
  apply last_None in E. contradiction.
Qed.

Lemma title_bucket_not_fading (v : Z) : title_bucket v <> "Interest Fading?".
Proof. unfold title_bucket. repeat case_match; discriminate. Qed.

(** X17.  Fetching and scoring.  When every call answers and the frame has the
    keyword as its first column, with values that are not negative and do
    not add up to 0, the data is returned as fetched, after the six events
    of a full run, and [calculate_hype_from_trends] scores it by the latest
    value; the title is "Interest Fading?" exactly when that value is 0,
    so a score of 0 never comes with "Minimal Interest". *)
Theorem fetched_data_scored (pytrends : Pytrends) (keyword timeframe : string)
    (log : list Event) (series : list Z) (others : InterestFrame)
    (related : gmap string (gmap string (option (list RelatedRow)))) :
  TrendReq pytrends = inr tt ->
  pytrends_build_payload pytrends [keyword] timeframe = inr tt ->
  pytrends_interest_over_time pytrends [keyword] timeframe =
    inr ((keyword, series) :: others) ->
  pytrends_related_queries pytrends [keyword] timeframe = inr related ->
  keyword <> "isPartial" ->
  Forall (fun v => 0 <= v) series ->
  sum series <> 0 ->
  exists trends_data v title snippets,
    get_google_trends_data pytrends keyword timeframe log =
      (inr (Some trends_data), log ++ full_run keyword timeframe) /\
    interest trends_data = (keyword, series) :: others /\
    related_queries trends_data = default ∅ (related !! keyword) /\
    last series = Some v /\
    calculate_hype_from_trends (Some trends_data) = inr (inject_Z v, title, snippets) /\
    (title = "Interest Fading?" <-> v = 0) /\
    snippets <> [].
Proof.
  intros Hc Hb Hi Hr Hk Hpos Hsum.
  assert (series <> []) as Hne by (intros ->; apply Hsum; reflexivity).
  destruct (last_of_nonempty series Hne) as [v Hlast].
  pose proof (fetch_cases pytrends keyword timeframe log) as H. cbn zeta in H.
  rewrite Hc, Hb, Hi in H.
  assert (column ((keyword, series) :: others) keyword = inr series) as Hcol
    by (cbn; rewrite String.eqb_refl; reflexivity).
  destruct (no_sufficient_data_spec keyword ((keyword, series) :: others))
    as [[Hn [Hnot | (s' & Hs' & H0)]] | [Hn _]]; rewrite Hn in H.
  - destruct Hnot. left. reflexivity.
  - congruence.
  - rewrite Hr in H.
    set (td := {| interest := (keyword, series) :: others;
                  related_queries := default ∅ (related !! keyword) |}) in *.
    assert (keyword_series (interest td) series) as Hks.
    { destruct series as [|v0 rest]; [contradiction|].
      apply leading_keyword_column. exact Hk. }
    exists td, v. do 2 eexists.
    split; [exact H|]. split; [reflexivity|]. split; [reflexivity|].
    split; [exact Hlast|].
    split; [exact (calculate_with_data td series v Hks Hlast)|].
    split.
    + pose proof (sum_nonneg series Hpos) as Hge.
      destruct (Z.eqb_spec v 0) as [-> | Hv]; cbn [andb].
      * replace (0 <? sum series) with true by (symmetry; apply Z.ltb_lt; lia).
        split; reflexivity.
      * split; [intros Ht; destruct (title_bucket_not_fading v Ht) | contradiction].
    + destruct (related_snippets (related_queries td)); discriminate.
Qed.

Lemma fetched_data_scored_witness :
  exists trends_data snippets,
    get_google_trends_data
      (pytrends_with [("python", [100; 240; 0]); ("isPartial", [0; 0; 1])] ∅)
      "python" default_timeframe [] =
      (inr (Some trends_data), full_run "python" default_timeframe) /\
    calculate_hype_from_trends (Some trends_data) =
      inr (0%Q, "Interest Fading?", snippets).
Proof.
  destruct (fetched_data_scored
              (pytrends_with [("python", [100; 240; 0]); ("isPartial", [0; 0; 1])] ∅)
              "python" default_timeframe [] [100; 240; 0] [("isPartial", [0; 0; 1])] ∅)
    as (td & v & title & snippets & Hrun & _ & _ & Hlast & Hcalc & Htitle & _);
    try reflexivity.
  - discriminate.
  - repeat constructor; lia.
  - discriminate.
  - injection Hlast as <-. exists td, snippets. split; [exact Hrun|].
    rewrite Hcalc. rewrite (proj2 Htitle eq_refl). reflexivity.
Defined.

(** *** What a returned result looks like *)

Lemma related_snippets_length (related : gmap string (option (list RelatedRow))) :
  (length (related_snippets related) <= 5)%nat.
Proof.
  unfold related_snippets. destruct (decide (related = ∅)) as [Hempty | Hsome];
    [cbn; lia|].
  rewrite length_app.
  assert (forall (f : RelatedRow -> string) (k : nat) (rows : list RelatedRow),
            (length (map f (firstn k rows)) <= k)%nat) as Hcut
    by (intros f k rows; rewrite length_map; apply firstn_le_length).
  destruct (related !! "top") as [[top|]|], (related !! "rising") as [[rising|]|];
    cbn [length];
    try pose proof (Hcut (fun row => "Top related: " +:+ row_query row) 2%nat top);
    try pose proof (Hcut (fun row => "Rising related: " +:+ row_query row +:+ " (+"
                                       +:+ str_int (row_value row) +:+ "%)") 3%nat rising);
    lia.
Qed.

(** Every returned triple is either the "No Data" result or the scoring of
    a latest value [v]. *)
Lemma calculate_returns_inv (trends_data : option TrendsData)
    (s : Q) (t : string) (sn : list string) :
  calculate_hype_from_trends trends_data = inr (s, t, sn) ->
  (s = 0%Q /\ t = "No Data" /\ sn = ["Could not retrieve sufficient trend data."]) \/
  (exists v td,
     trends_data = Some td /\
     s = inject_Z v /\
     ((t = "Interest Fading?" /\ v = 0) \/ t = title_bucket v) /\
     sn = match related_snippets (related_queries td) with
          | [] => ["No specific related queries found."]
          | first :: rest => first :: rest
          end).
Proof.
  unfold calculate_hype_from_trends. destruct trends_data as [td|];
    [|intros [= <- <- <-]; left; repeat split].
  destruct (empty (interest td)); [intros [= <- <- <-]; left; repeat split|].
  cbn [negb].
  destruct (List.filter _ _) as [|keyword_column others]; [discriminate|].
  cbn [bind].
  destruct (column (interest td) keyword_column) as [e | series]; [discriminate|].
  cbn [bind]. destruct (iloc_last series) as [e | v]; [discriminate|].
  cbn [bind]. intros H. right. exists v, td. split; [reflexivity|].
  destruct (v =? 0) eqn:Hv; cbn [bind] in H.
  - apply Z.eqb_eq in Hv. destruct (0 <? sum series);
      destruct (related_snippets (related_queries td));
      injection H as <- <- <-; repeat split; tauto.
  - destruct (related_snippets (related_queries td));
      injection H as <- <- <-; repeat split; tauto.
Qed.

(** X18.  Whatever the input, a returned result carries between one and five
    snippets: two "top" and three "rising" related queries at most. *)
Theorem snippets_between_1_and_5 (trends_data : option TrendsData)
    (s : Q) (t : string) (sn : list string) :
  calculate_hype_from_trends trends_data = inr (s, t, sn) ->
  (1 <= length sn <= 5)%nat.
Proof.
  intros H. apply calculate_returns_inv in H
    as [(_ & _ & ->) | (v & td & _ & _ & _ & ->)]; [cbn; lia|].
  pose proof (related_snippets_length (related_queries td)) as Hlen.
  destruct (related_snippets (related_queries td)); cbn [length] in *; lia.
Qed.

Lemma snippets_between_1_and_5_witness :
  exists s t sn,
    calculate_hype_from_trends (Some steady) = inr (s, t, sn) /\
    sn = ["Top related: python download"; "Top related: python list";
          "Rising related: python 3.13 (+250%)"] /\
    (1 <= length sn <= 5)%nat.
Proof.
  destruct (calculate_hype_from_trends (Some steady)) as [e | [[s t] sn]] eqn:E;
    [vm_compute in E; discriminate|].
  exists s, t, sn. split; [reflexivity|]. split.
  - vm_compute in E. injection E as _ _ <-. reflexivity.
  - exact (snippets_between_1_and_5 (Some steady) s t sn E).
Defined.

Lemma title_bucket_band (v : Z) :
  (title_bucket v = "Peak Interest!" /\ 85 < v) \/
  (title_bucket v = "High Interest" /\ 65 < v <= 85) \/
  (title_bucket v = "Moderate Interest" /\ 40 < v <= 65) \/
  (title_bucket v = "Low Interest" /\ 15 < v <= 40) \/
  (title_bucket v = "Minimal Interest" /\ v <= 15).
Proof.
  unfold title_bucket.
  destruct (Z.ltb_spec 85 v), (Z.ltb_spec 65 v), (Z.ltb_spec 40 v), (Z.ltb_spec 15 v);
    try lia; tauto.
Qed.

(** X19.  The title of a returned result tells the band of its score: above 85,
    66 to 85, 41 to 65, 16 to 40, 15 or less; "Interest Fading?" and
    "No Data" come with the score 0; there is no other title. *)
Theorem title_tells_score_band (trends_data : option TrendsData)
    (s : Q) (t : string) (sn : list string) :
  calculate_hype_from_trends trends_data = inr (s, t, sn) ->
  (t = "Peak Interest!" /\ (85 < s)%Q) \/
  (t = "High Interest" /\ (65 < s <= 85)%Q) \/
  (t = "Moderate Interest" /\ (40 < s <= 65)%Q) \/
  (t = "Low Interest" /\ (15 < s <= 40)%Q) \/
  (t = "Minimal Interest" /\ (s <= 15)%Q) \/
  (t = "Interest Fading?" /\ (s == 0)%Q) \/
  (t = "No Data" /\ (s == 0)%Q).
Proof.
  intros H. apply calculate_returns_inv in H
    as [(-> & -> & _) | (v & td & _ & -> & [[-> ->] | ->] & _)].
  - do 6 right. split; reflexivity.
  - do 5 right. left. split; reflexivity.
  - destruct (title_bucket_band v) as [[-> Hb] | [[-> Hb] | [[-> Hb] | [[-> Hb] | [-> Hb]]]]].
    + left. split; [reflexivity|]. unfold Qlt. cbn. lia.
    + right. left. split; [reflexivity|]. unfold Qlt, Qle. cbn. lia.
    + do 2 right. left. split; [reflexivity|]. unfold Qlt, Qle. cbn. lia.
    + do 3 right. left. split; [reflexivity|]. unfold Qlt, Qle. cbn. lia.
    + do 4 right. left. split; [reflexivity|]. unfold Qle. cbn. lia.
Qed.

Lemma title_tells_score_band_witness :
  exists s sn,
    calculate_hype_from_trends (Some steady) = inr (s, "High Interest", sn) /\
    (65 < s <= 85)%Q.
Proof.
  destruct (calculate_hype_from_trends (Some steady)) as [e | [[s t] sn]] eqn:E;
    [vm_compute in E; discriminate|].
  assert (t = "High Interest") as -> by (vm_compute in E; congruence).
  exists s, sn. split; [reflexivity|].
  destruct (title_tells_score_band (Some steady) s "High Interest" sn E)
    as [[Ht _] | [[_ Hb] | [[Ht _] | [[Ht _] | [[Ht _] | [[Ht _] | [Ht _]]]]]]];
    try discriminate Ht.
  exact Hb.
Defined.

End TrendsExtra.
